(** * Dataverse CLI: configuration, client factory and API client

    A shallow embedding of [dataverse_cli/config.py], [dataverse_cli/client.py],
    the listing commands of [dataverse_cli/commands/flow.py] and
    [dataverse_cli/commands/solution.py], and the error check of
    [delete_connector.py].

    Python [str] values are byte strings ([string]); [Optional[str]] is
    [option string]; decoded JSON is the inductive type [json]; the header
    dictionaries of the HTTP library are finite maps keyed by the lower-cased
    header name, as the library stores them.  Module-level globals, the objects
    they point to and everything the process does to the outside (identity
    provider calls, HTTP requests, console output) live in one [World] that the
    code threads through a state-and-exception monad. *)

From Stdlib Require Import Ascii.
From stdpp Require Import gmap strings list fin_maps pretty.

Open Scope string_scope.
Open Scope Z_scope.
Open Scope list_scope.

(** ** Python strings *)

Module Str.

(** [c.lower()] on one character: ASCII capitals only. *)
Definition lower_ascii (c : ascii) : ascii :=
  let n := nat_of_ascii c in
  if ((65 <=? n) && (n <=? 90))%nat then ascii_of_nat (n + 32) else c.

(** [s.lower()] *)
Fixpoint lower (s : string) : string :=
  match s with
  | EmptyString => EmptyString
  | String c s' => String (lower_ascii c) (lower s')
  end.

(** [s.startswith(p)] *)
Fixpoint startswith (p s : string) : bool :=
  match p, s with
  | EmptyString, _ => true
  | String _ _, EmptyString => false
  | String a p', String b s' => Ascii.eqb a b && startswith p' s'
  end.

(** [needle in hay] *)
Fixpoint contains (needle hay : string) : bool :=
  startswith needle hay ||
  match hay with
  | EmptyString => false
  | String _ hay' => contains needle hay'
  end.

(** [s.split(sep)] for a one-character separator. *)
Fixpoint split (sep : ascii) (s : string) : list string :=
  match s with
  | EmptyString => [EmptyString]
  | String c s' =>
      if Ascii.eqb c sep then EmptyString :: split sep s'
      else match split sep s' with
           | [] => [String c EmptyString]
           | p :: ps => String c p :: ps
           end
  end.

(** [s.rstrip(c)] for a one-character set. *)
Fixpoint rstrip (c : ascii) (s : string) : string :=
  match s with
  | EmptyString => EmptyString
  | String a s' =>
      match rstrip c s' with
      | EmptyString => if Ascii.eqb a c then EmptyString else String a EmptyString
      | r => String a r
      end
  end.

(** [sep.join(parts)] *)
Fixpoint join (sep : string) (parts : list string) : string :=
  match parts with
  | [] => EmptyString
  | [p] => p
  | p :: ps => p +:+ sep +:+ join sep ps
  end.

(** Truth value of a [str]: the empty string is false. *)
Definition nonempty (s : string) : bool :=
  match s with EmptyString => false | String _ _ => true end.

End Str.

(** Truth value of an [Optional[str]]: [None] and [""] are false. *)
Definition truthy (o : option string) : bool :=
  match o with
  | Some s => Str.nonempty s
  | None => false
  end.

(** [a and b] on [Optional[str]] operands: the first falsy operand, else the last. *)
Definition py_and (a b : option string) : option string :=
  if truthy a then b else a.

(** [all([...])] *)
Definition py_all (l : list (option string)) : bool := forallb truthy l.

(** ** config.py *)

Record Config := mkConfig {
  dataverse_url : option string;
  environment_id : option string;
  client_id : option string;
  client_secret : option string;
  tenant_id : option string;
  username : option string;
  password : option string;
  access_token : option string
}.

(** [Config.__init__]: every field is [os.getenv] of its variable. *)
Definition Config_init (getenv : string -> option string) : Config :=
  {| dataverse_url := getenv "DATAVERSE_URL";
     environment_id := getenv "DATAVERSE_ENVIRONMENT_ID";
     client_id := getenv "DATAVERSE_CLIENT_ID";
     client_secret := getenv "DATAVERSE_CLIENT_SECRET";
     tenant_id := getenv "DATAVERSE_TENANT_ID";
     username := getenv "DATAVERSE_USERNAME";
     password := getenv "DATAVERSE_PASSWORD";
     access_token := getenv "DATAVERSE_ACCESS_TOKEN" |}.

Definition has_service_principal_auth (self : Config) : bool :=
  py_all [dataverse_url self; client_id self; client_secret self; tenant_id self].

Definition has_user_auth (self : Config) : bool :=
  py_all [dataverse_url self; client_id self; tenant_id self;
          username self; password self].

Definition has_token_auth (self : Config) : bool :=
  truthy (py_and (access_token self) (dataverse_url self)).

Definition get_missing_credentials (self : Config) : list string :=
  let missing : list string := [] in
  if truthy (py_and (access_token self) (dataverse_url self)) then []
  else
    let missing :=
      if negb (truthy (dataverse_url self)) then missing ++ ["DATAVERSE_URL"] else missing in
    let missing :=
      if negb (truthy (client_id self)) then missing ++ ["DATAVERSE_CLIENT_ID"] else missing in
    let missing :=
      if negb (truthy (client_secret self)) then missing ++ ["DATAVERSE_CLIENT_SECRET"] else missing in
    let missing :=
      if negb (truthy (tenant_id self)) then missing ++ ["DATAVERSE_TENANT_ID"] else missing in
    missing.

(** The four variables of the service-principal combination, in the order the
    code checks them, and the configuration field each one is read into. *)
Definition service_principal_vars : list string :=
  ["DATAVERSE_URL"; "DATAVERSE_CLIENT_ID"; "DATAVERSE_CLIENT_SECRET"; "DATAVERSE_TENANT_ID"].

Definition Config_field (self : Config) (var : string) : option string :=
  if String.eqb var "DATAVERSE_URL" then dataverse_url self
  else if String.eqb var "DATAVERSE_ENVIRONMENT_ID" then environment_id self
  else if String.eqb var "DATAVERSE_CLIENT_ID" then client_id self
  else if String.eqb var "DATAVERSE_CLIENT_SECRET" then client_secret self
  else if String.eqb var "DATAVERSE_TENANT_ID" then tenant_id self
  else if String.eqb var "DATAVERSE_USERNAME" then username self
  else if String.eqb var "DATAVERSE_PASSWORD" then password self
  else if String.eqb var "DATAVERSE_ACCESS_TOKEN" then access_token self
  else None.

(** A variable is absent when its field is [None] or empty. *)
Definition absent (self : Config) (var : string) : bool :=
  negb (truthy (Config_field self var)).

(** [get_auth_scope]: [Err] carries the message of the [ValueError]. *)
Definition get_auth_scope (self : Config) : string + string :=
  if negb (truthy (dataverse_url self)) then inl "DATAVERSE_URL not configured"
  else inr (default "None" (dataverse_url self) +:+ "/.default").

(** ** Decoded JSON and the Python operations the commands apply to it *)

#[warnings="-register-all"]
Inductive json :=
| JNull
| JBool (b : bool)
| JNum (z : Z)
| JStr (s : string)
| JList (l : list json)
| JDict (d : list (string * json)).

(** Truth value of a decoded JSON value. *)
Definition py_truthy (v : json) : bool :=
  match v with
  | JNull => false
  | JBool b => b
  | JNum z => negb (z =? 0)
  | JStr s => Str.nonempty s
  | JList l => match l with [] => false | _ => true end
  | JDict d => match d with [] => false | _ => true end
  end.

(** [type(v).__name__] *)
Definition py_type_name (v : json) : string :=
  match v with
  | JNull => "NoneType"
  | JBool _ => "bool"
  | JNum _ => "int"
  | JStr _ => "str"
  | JList _ => "list"
  | JDict _ => "dict"
  end.

(** The message of the [AttributeError] for a method the value does not have. *)
Definition no_attribute (v : json) (name : string) : string :=
  "'" +:+ py_type_name v +:+ "' object has no attribute '" +:+ name +:+ "'".

(** The message of the [TypeError] of [v[k] = x] for a string [k], on a value
    that is not a dict. *)
Definition no_item_assignment (v : json) : string :=
  match v with
  | JList _ => "list indices must be integers or slices, not str"
  | _ => "'" +:+ py_type_name v +:+ "' object does not support item assignment"
  end.

(** [isinstance(v, list)] *)
Definition is_list (v : json) : bool :=
  match v with JList _ => true | _ => false end.

(** An [Optional[str]] argument seen as a Python value. *)
Definition of_opt (o : option string) : json :=
  match o with Some s => JStr s | None => JNull end.

(** [d.get(k)] on the items of a dict: the value, else [None]. *)
Fixpoint dict_get (k : string) (d : list (string * json)) : json :=
  match d with
  | [] => JNull
  | (k', v) :: d' => if String.eqb k k' then v else dict_get k d'
  end.

(** [d[k] = v] on the items of a dict: in place when the key exists, else appended. *)
Fixpoint dict_set (k : string) (v : json) (d : list (string * json)) : list (string * json) :=
  match d with
  | [] => [(k, v)]
  | (k', v') :: d' => if String.eqb k k' then (k, v) :: d' else (k', v') :: dict_set k v d'
  end.

(** The characters of a string, each as a one-character string. *)
Fixpoint chars (s : string) : list string :=
  match s with
  | EmptyString => []
  | String c s' => String c EmptyString :: chars s'
  end.

(** ** HTTP library objects *)

(** The case-insensitive dictionary of the HTTP library: the store maps the
    lower-cased name to the pair of the name as last set and its value. *)
Abbreviation CaseInsensitiveDict := (gmap string (string * string)).

Definition ci_get (k : string) (h : CaseInsensitiveDict) : option string :=
  snd <$> h !! Str.lower k.

Definition ci_set (k v : string) (h : CaseInsensitiveDict) : CaseInsensitiveDict :=
  <[Str.lower k := (k, v)]> h.

(** [h.update({...})], items applied left to right. *)
Definition ci_update (items : list (string * string)) (h : CaseInsensitiveDict)
  : CaseInsensitiveDict :=
  fold_left (fun acc kv => ci_set kv.1 kv.2 acc) items h.

Inductive Method := GET | POST | PATCH | DELETE.

Record Request := mkRequest {
  req_method : Method;
  req_url : string;
  req_params : option (list (string * json));
  req_json : option json;
  req_headers : CaseInsensitiveDict
}.

Record Response := mkResponse {
  status_code : Z;
  reason : string;
  text : string;
  headers : CaseInsensitiveDict
}.

(** What sending a request comes to: a response, or a transport failure
    (DNS, refused connection, timeout, too many redirects) with its message. *)
Inductive Outcome :=
| Responded (r : Response)
| TransportFailure (msg : string).

(** ** Exceptions *)

Inductive exn :=
| ClientError (msg : string)
| HTTPError (msg : string) (response : Response)
| RequestException (msg : string)
| ValueError (msg : string)
| AttributeError (msg : string)
| TypeError (msg : string)
| IndexError (msg : string)
| KeyError (msg : string)
| Exit (code : Z)
| LibraryError (msg : string).

(** [str(e)] *)
Definition exn_str (e : exn) : string :=
  match e with
  | ClientError m | HTTPError m _ | RequestException m | ValueError m
  | AttributeError m | TypeError m | IndexError m | KeyError m | LibraryError m => m
  | Exit _ => ""
  end.

(** ** The process and its surroundings *)

(** Objects are referred to by their address in the heap. *)
Definition loc := nat.

(** A [DataverseClient] object; [session_headers] is [self.session.headers]. *)
Record DataverseClient := mkClient {
  client_url : string;
  client_token : option string;
  api_base : string;
  session_headers : CaseInsensitiveDict
}.

(** What the process does to the outside, in order. *)
Inductive Event :=
| EvClientCredentials (authority : string) (client_id client_credential : option string)
    (scopes : list string)
| EvUsernamePassword (authority : string) (client_id username password : option string)
    (scopes : list string)
| EvHttp (req : Request)
| EvEcho (msg : string)
| EvPrintJson (v : json)
| EvPrintTable (rows : json) (columns : list string)
| EvHandleApiError (e : exn).

(** Module globals ([_config] of config.py, [_client] of client.py), the
    client objects allocated so far, and the events so far (oldest first). *)
Record World := mkWorld {
  _config : option Config;
  _client : option loc;
  heap : list DataverseClient;
  trace : list Event
}.

(** Everything outside the repository's sources under study.  The identity
    provider and the HTTP server answer as a function of the request and of
    all that happened before it, so two equal requests may be answered
    differently. *)
Class External := {
  (** [os.getenv] once the [.env] file is loaded *)
  getenv : string -> option string;
  (** [ConfidentialClientApplication(...).acquire_token_for_client(scopes)] *)
  acquire_token_for_client :
    list Event -> string -> option string -> option string -> list string ->
    exn + list (string * string);
  (** [PublicClientApplication(...).acquire_token_by_username_password(...)] *)
  acquire_token_by_username_password :
    list Event -> string -> option string -> option string -> option string ->
    list string -> exn + list (string * string);
  (** the HTTP exchange of one request, redirects followed *)
  http_send : list Event -> Request -> Outcome;
  (** the JSON decoder: the decoded value, or the decoder's error message *)
  json_decode : string -> string + json;
  (** the values of the session's library defaults that the environment fixes *)
  default_user_agent : string;
  default_accept_encoding : string;
  (** [str(v)] of a list or dict *)
  py_repr : json -> string;
  (** [a == b] on decoded JSON values *)
  py_eq : json -> json -> bool;
  (** [format_response] of output.py *)
  format_response : json -> json;
  (** [handle_api_error] of output.py: the exit code it returns *)
  handle_api_error : exn -> Z
}.

(** *** The state-and-exception monad *)

Definition M (A : Type) : Type := World -> (exn + A) * World.

Definition ret {A} (a : A) : M A := fun w => (inr a, w).

Definition raise {A} (e : exn) : M A := fun w => (inl e, w).

Definition bind {A B} (m : M A) (k : A -> M B) : M B :=
  fun w => match m w with
           | (inr a, w') => k a w'
           | (inl e, w') => (inl e, w')
           end.

(** [try: m  except ... as e: h e]; the handler re-raises what it does not catch. *)
Definition try_except {A} (m : M A) (h : exn -> M A) : M A :=
  fun w => match m w with
           | (inr a, w') => (inr a, w')
           | (inl e, w') => h e w'
           end.

Notation "'do' x <- m ; k" := (bind m (fun x => k))
  (at level 10, x name, m at level 100, k at level 200).
Notation "'run' m ; k" := (bind m (fun _ => k))
  (at level 10, m at level 100, k at level 200).

Definition emit (ev : Event) : M unit :=
  fun w => (inr tt, {| _config := _config w; _client := _client w;
                       heap := heap w; trace := trace w ++ [ev] |}).

Definition lift_sum {A} (r : exn + A) : M A :=
  match r with inl e => raise e | inr a => ret a end.

Definition get_trace : M (list Event) := fun w => (inr (trace w), w).

(** Allocate a client object; its address is the next free one. *)
Definition alloc (c : DataverseClient) : M loc :=
  fun w => (inr (length (heap w)),
            {| _config := _config w; _client := _client w;
               heap := heap w ++ [c]; trace := trace w |}).

(** Read the object at an address. *)
Definition deref (l : loc) : M DataverseClient :=
  fun w => match heap w !! l with
           | Some c => (inr c, w)
           | None => (inl (LibraryError "no object at this address"), w)
           end.

(** The object [c] after [c.session.headers[k] = v]. *)
Definition with_header (k v : string) (c : DataverseClient) : DataverseClient :=
  {| client_url := client_url c;
     client_token := client_token c;
     api_base := api_base c;
     session_headers := ci_set k v (session_headers c) |}.

Definition with_heap (h : list DataverseClient) (w : World) : World :=
  {| _config := _config w; _client := _client w; heap := h; trace := trace w |}.

Definition with_event (ev : Event) (w : World) : World :=
  {| _config := _config w; _client := _client w; heap := heap w;
     trace := trace w ++ [ev] |}.

(** [self.session.headers[k] = v] *)
Definition set_session_header (self : loc) (k v : string) : M unit :=
  fun w => match heap w !! self with
           | Some c => (inr tt, with_heap (<[self := with_header k v c]> (heap w)) w)
           | None => (inl (LibraryError "no object at this address"), w)
           end.

Definition set_client (c : option loc) : M unit :=
  fun w => (inr tt, {| _config := _config w; _client := c;
                       heap := heap w; trace := trace w |}).

(** f-string rendering of an [Optional[str]]. *)
Definition str_of_opt (o : option string) : string := default "None" o.

(** ** client.py *)

Section Client.

Context `{X : External}.

(** [requests.Session().headers]: the library's defaults. *)
Definition default_headers : CaseInsensitiveDict :=
  ci_update [("User-Agent", default_user_agent);
             ("Accept-Encoding", default_accept_encoding);
             ("Accept", "*/*");
             ("Connection", "keep-alive")] ∅.

(** The headers [__init__] puts on the session. *)
Definition client_default_headers (access_token : option string) : list (string * string) :=
  [("Authorization", "Bearer " +:+ str_of_opt access_token);
   ("Accept", "application/json");
   ("OData-MaxVersion", "4.0");
   ("OData-Version", "4.0")].

(** [DataverseClient(dataverse_url, access_token)] *)
Definition DataverseClient_init (dataverse_url access_token : option string) : M loc :=
  match dataverse_url with
  | None => raise (AttributeError "'NoneType' object has no attribute 'rstrip'")
  | Some u =>
      let url := Str.rstrip "/"%char u in
      alloc {| client_url := url;
               client_token := access_token;
               api_base := url +:+ "/api/data/v9.2";
               session_headers :=
                 ci_update (client_default_headers access_token) default_headers |}
  end.

(** [self.session.<method>(url, ...)]: the request carries the session's
    headers as they are at the time of the call. *)
Definition session_request (self : loc) (m : Method) (url : string)
    (params : option (list (string * json))) (body : option json) : M Response :=
  do c <- deref self;
  let req := mkRequest m url params body (session_headers c) in
  do tr <- get_trace;
  run emit (EvHttp req);
  match http_send tr req with
  | Responded r => ret r
  | TransportFailure msg => raise (RequestException msg)
  end.

(** [response.raise_for_status()]: statuses 400 to 599 raise. *)
Definition raise_for_status (url : string) (r : Response) : M unit :=
  if (400 <=? status_code r) && (status_code r <? 500) then
    raise (HTTPError (pretty (status_code r) +:+ " Client Error: " +:+ reason r
                      +:+ " for url: " +:+ url) r)
  else if (500 <=? status_code r) && (status_code r <? 600) then
    raise (HTTPError (pretty (status_code r) +:+ " Server Error: " +:+ reason r
                      +:+ " for url: " +:+ url) r)
  else ret tt.

(** [response.json()]: a decoding error is a [RequestException]. *)
Definition response_json (r : Response) : M json :=
  match json_decode (text r) with
  | inr v => ret v
  | inl msg => raise (RequestException msg)
  end.

(** [response.json() if response.text else {}] *)
Definition json_or_empty (r : Response) : M json :=
  if Str.nonempty (text r) then response_json r else ret (JDict []).

(** The two [except] clauses every method ends with. *)
Definition to_client_error {A} (e : exn) : M A :=
  match e with
  | HTTPError _ response =>
      raise (ClientError ("HTTP " +:+ pretty (status_code response)
                          +:+ ": " +:+ text response))
  | RequestException msg => raise (ClientError ("Request failed: " +:+ msg))
  | _ => raise e
  end.

Definition DataverseClient_get (self : loc) (endpoint : string)
    (params : option (list (string * json))) : M json :=
  do c <- deref self;
  let url := api_base c +:+ "/" +:+ endpoint in
  try_except
    (do response <- session_request self GET url params None;
     run raise_for_status url response;
     json_or_empty response)
    to_client_error.

(** [header.split("(")[1].split(")")[0]] *)
Definition entity_id_of (entity_id_header : string) : M string :=
  match Str.split "("%char entity_id_header !! 1%nat with
  | None => raise (IndexError "list index out of range")
  | Some after =>
      match Str.split ")"%char after !! 0%nat with
      | None => raise (IndexError "list index out of range")
      | Some entity_id => ret entity_id
      end
  end.

Definition DataverseClient_post (self : loc) (endpoint : string) (data : json) : M json :=
  do c <- deref self;
  let url := api_base c +:+ "/" +:+ endpoint in
  run set_session_header self "Content-Type" "application/json";
  run set_session_header self "Prefer" "return=representation";
  try_except
    (do response <- session_request self POST url None (Some data);
     run raise_for_status url response;
     if status_code response =? 204 then
       let entity_id_header := default "" (ci_get "OData-EntityId" (headers response)) in
       if Str.nonempty entity_id_header && Str.contains "(" entity_id_header then
         do entity_id <- entity_id_of entity_id_header;
         ret (JDict [("id", JStr entity_id)])
       else ret (JDict [])
     else json_or_empty response)
    to_client_error.

Definition DataverseClient_patch (self : loc) (endpoint : string) (data : json) : M json :=
  do c <- deref self;
  let url := api_base c +:+ "/" +:+ endpoint in
  run set_session_header self "Content-Type" "application/json";
  try_except
    (do response <- session_request self PATCH url None (Some data);
     run raise_for_status url response;
     json_or_empty response)
    to_client_error.

Definition DataverseClient_delete (self : loc) (endpoint : string) : M unit :=
  do c <- deref self;
  let url := api_base c +:+ "/" +:+ endpoint in
  try_except
    (do response <- session_request self DELETE url None None;
     raise_for_status url response)
    to_client_error.

(** [k in d] and [d.get(k, dflt)] on the token result of the identity library. *)
Fixpoint assoc (k : string) (d : list (string * string)) : option string :=
  match d with
  | [] => None
  | (k', v) :: d' => if String.eqb k k' then Some v else assoc k d'
  end.

(** The tail shared by the two token functions: the token, or the
    identity provider's error description. *)
Definition token_of_result (result : list (string * string)) : M string :=
  match assoc "access_token" result with
  | None =>
      let error := default (default "Unknown error" (assoc "error" result))
                           (assoc "error_description" result) in
      raise (ClientError ("Failed to acquire token: " +:+ error))
  | Some t => ret t
  end.

(** Building the application object has no effect of its own here: whatever
    the identity library raises, it raises from the acquisition. *)
Definition _get_service_principal_token (config : Config) : M string :=
  let authority := "https://login.microsoftonline.com/" +:+ str_of_opt (tenant_id config) in
  do scope <- match get_auth_scope config with
              | inl msg => raise (ValueError msg)
              | inr s => ret [s]
              end;
  do tr <- get_trace;
  run emit (EvClientCredentials authority (client_id config) (client_secret config) scope);
  do result <- lift_sum (acquire_token_for_client tr authority (client_id config)
                           (client_secret config) scope);
  token_of_result result.

Definition _get_user_token (config : Config) : M string :=
  let authority := "https://login.microsoftonline.com/" +:+ str_of_opt (tenant_id config) in
  do scope <- match get_auth_scope config with
              | inl msg => raise (ValueError msg)
              | inr s => ret [s]
              end;
  do tr <- get_trace;
  run emit (EvUsernamePassword authority (client_id config) (username config)
              (password config) scope);
  do result <- lift_sum (acquire_token_by_username_password tr authority (client_id config)
                           (username config) (password config) scope);
  token_of_result result.

(** [get_config] of config.py *)
Definition get_config : M Config :=
  fun w => match _config w with
           | Some c => (inr c, w)
           | None =>
               let c := Config_init getenv in
               (inr c, {| _config := Some c; _client := _client w;
                          heap := heap w; trace := trace w |})
           end.

Definition nl : string := String "010"%char EmptyString.

(** The message listing the missing variables and the three combinations. *)
Definition missing_credentials_message (missing : list string) : string :=
  let error_msg :=
    "Missing required Dataverse credentials. Please set the following "
    +:+ "environment variables:" +:+ nl +:+ nl in
  let error_msg :=
    fold_left (fun acc cred => acc +:+ "  - " +:+ cred +:+ nl) missing error_msg in
  let error_msg := error_msg +:+ nl
    +:+ "For service principal authentication (recommended for CLI):" +:+ nl in
  let error_msg := error_msg
    +:+ "  DATAVERSE_URL, DATAVERSE_CLIENT_ID, DATAVERSE_CLIENT_SECRET, DATAVERSE_TENANT_ID"
    +:+ nl in
  let error_msg := error_msg +:+ nl +:+ "For user authentication:" +:+ nl in
  let error_msg := error_msg
    +:+ "  DATAVERSE_URL, DATAVERSE_CLIENT_ID, DATAVERSE_TENANT_ID, DATAVERSE_USERNAME, DATAVERSE_PASSWORD"
    +:+ nl in
  let error_msg := error_msg +:+ nl
    +:+ "For token authentication (if you already have a token):" +:+ nl in
  let error_msg := error_msg +:+ "  DATAVERSE_URL, DATAVERSE_ACCESS_TOKEN" +:+ nl in
  error_msg.

Definition read_client : M (option loc) := fun w => (inr (_client w), w).

Definition get_client : M loc :=
  do cached <- read_client;
  match cached with
  | Some c => ret c
  | None =>
      do config <- get_config;
      let missing := get_missing_credentials config in
      if match missing with [] => false | _ => true end then
        raise (ClientError (missing_credentials_message missing))
      else if has_token_auth config then
        do c <- DataverseClient_init (dataverse_url config) (access_token config);
        run set_client (Some c);
        ret c
      else if has_service_principal_auth config then
        try_except
          (do access_token <- _get_service_principal_token config;
           do c <- DataverseClient_init (dataverse_url config) (Some access_token);
           run set_client (Some c);
           ret c)
          (fun e => raise (ClientError
             ("Failed to authenticate with service principal: " +:+ exn_str e)))
      else if has_user_auth config then
        try_except
          (do access_token <- _get_user_token config;
           do c <- DataverseClient_init (dataverse_url config) (Some access_token);
           run set_client (Some c);
           ret c)
          (fun e => raise (ClientError
             ("Failed to authenticate with user credentials: " +:+ exn_str e)))
      else raise (ClientError "No valid authentication method available")
  end.

Definition reset_client : M unit := set_client None.

End Client.

(** ** commands/flow.py and commands/solution.py *)

Section Commands.

Context `{X : External}.

(** [str(v)] as the f-strings apply it. *)
Definition py_str (v : json) : string :=
  match v with
  | JStr s => s
  | JNum z => pretty z
  | JBool true => "True"
  | JBool false => "False"
  | JNull => "None"
  | JList _ | JDict _ => py_repr v
  end.

(** [v.get(k)]: only a dict has [get]. *)
Definition py_get (v : json) (k : string) : M json :=
  match v with
  | JDict d => ret (dict_get k d)
  | _ => raise (AttributeError (no_attribute v "get"))
  end.

(** [v[0]] *)
Definition py_first (v : json) : M json :=
  match v with
  | JList (x :: _) => ret x
  | JList [] => raise (IndexError "list index out of range")
  | JStr (String c _) => ret (JStr (String c EmptyString))
  | JStr EmptyString => raise (IndexError "string index out of range")
  | JDict _ => raise (KeyError "0")
  | _ => raise (TypeError ("'" +:+ py_type_name v +:+ "' object is not subscriptable"))
  end.

(** The items [for x in v] goes through. *)
Definition py_iter (v : json) : M (list json) :=
  match v with
  | JList l => ret l
  | JDict d => ret (map (fun kv => JStr kv.1) d)
  | JStr s => ret (map JStr (chars s))
  | _ => raise (TypeError ("'" +:+ py_type_name v +:+ "' object is not iterable"))
  end.

(** [statecode == 1] *)
Definition is_one (v : json) : bool :=
  match v with
  | JNum 1 | JBool true => true
  | _ => false
  end.

(** [for flow in flows: flow["state"] = "Activated" if flow.get("statecode") == 1 else "Draft"] *)
Fixpoint set_states (flows : list json) : M (list json) :=
  match flows with
  | [] => ret []
  | flow :: rest =>
      do statecode <- py_get flow "statecode";
      let state := if is_one statecode then "Activated" else "Draft" in
      match flow with
      | JDict d =>
          do rest' <- set_states rest;
          ret (JDict (dict_set "state" (JStr state) d) :: rest')
      | _ => raise (TypeError (no_item_assignment flow))
      end
  end.

(** The lines both listings end with: the table of the flows, or their JSON. *)
Definition show_flows (table_format : bool) (flows : json) : M unit :=
  if table_format && is_list flows then
    do items <- py_iter flows;
    do rows <- set_states items;
    emit (EvPrintTable (JList rows) ["name"; "workflowid"; "state"; "modifiedon"])
  else emit (EvPrintJson flows).

(** [try: body  except Exception as e: raise typer.Exit(handle_api_error(e))] *)
Definition command (body : M unit) : M unit :=
  try_except body
    (fun e => run emit (EvHandleApiError e); raise (Exit (handle_api_error e))).

(** [[f for f in flows if f.get("solutionid") == solution_id]] *)
Fixpoint in_solution (solution_id : json) (flows : list json) : M (list json) :=
  match flows with
  | [] => ret []
  | f :: rest =>
      do sid <- py_get f "solutionid";
      do rest' <- in_solution solution_id rest;
      ret (if py_eq sid solution_id then f :: rest' else rest')
  end.

(** [list_flows], the block building the filter and fetching the flows. *)
Definition fetch_flows (client : loc) (state : option string) : M json :=
  let filters := ["category eq 5"] in
  let filters :=
    if truthy state then
      let state_code :=
        if String.eqb (Str.lower (str_of_opt state)) "activated" then 1 else 0 in
      filters ++ ["statecode eq " +:+ pretty state_code]
    else filters in
  let filter_query := Str.join " and " filters in
  let params :=
    [("$filter", JStr filter_query);
     ("$select",
      JStr "workflowid,name,statecode,statuscode,createdon,modifiedon,solutionid");
     ("$orderby", JStr "modifiedon desc")] in
  do result <- DataverseClient_get client "workflows" (Some params);
  ret (format_response result).

Definition solution_lookup_params (name : option string) : list (string * json) :=
  [("$filter", JStr ("friendlyname eq '" +:+ str_of_opt name +:+ "'"));
   ("$select", JStr "solutionid")].

(** [list_flows], the block under [# Filter by solution if specified]. *)
Definition filter_by_solution (client : loc) (solution : option string) (flows : json)
  : M json :=
  if truthy solution && is_list flows then
    let solution_params := solution_lookup_params solution in
    do solution_result <- DataverseClient_get client "solutions" (Some solution_params);
    let solutions := format_response solution_result in
    if py_truthy solutions then
      do first <- py_first solutions;
      do solution_id <- py_get first "solutionid";
      do items <- py_iter flows;
      do kept <- in_solution solution_id items;
      ret (JList kept)
    else ret flows
  else ret flows.

Definition list_flows (solution state : option string) (table_format : bool) : M unit :=
  command
    (do client <- get_client;
     do flows <- fetch_flows client state;
     do flows <- filter_by_solution client solution flows;
     show_flows table_format flows).

(** [[comp.get("objectid") for comp in components if comp.get("objectid")]] *)
Fixpoint object_ids (components : list json) : M (list json) :=
  match components with
  | [] => ret []
  | comp :: rest =>
      do objectid <- py_get comp "objectid";
      if py_truthy objectid then
        do objectid <- py_get comp "objectid";
        do rest' <- object_ids rest;
        ret (objectid :: rest')
      else object_ids rest
  end.

(** [list_solution_flows], the block under [# Get solution ID if name
    provided] and the check that follows it. *)
Definition resolve_solution_id (client : loc) (solution_id name : option string) : M json :=
  do solution_id <-
    if truthy name && negb (truthy solution_id) then
      let params := solution_lookup_params name in
      do result <- DataverseClient_get client "solutions" (Some params);
      let solutions := format_response result in
      if is_list solutions && py_truthy solutions then
        do first <- py_first solutions;
        py_get first "solutionid"
      else
        run emit (EvEcho ("Error: Solution '" +:+ str_of_opt name +:+ "' not found"));
        raise (Exit 1)
    else ret (of_opt solution_id);
  if negb (py_truthy solution_id) then
    run emit (EvEcho "Error: Either --id or --name must be provided");
    raise (Exit 1)
  else ret solution_id.

Definition component_params (solution_id : json) : list (string * json) :=
  [("$filter", JStr ("_solutionid_value eq " +:+ py_str solution_id
                     +:+ " and componenttype eq 29"));
   ("$select", JStr "objectid")].

(** [list_solution_flows], the two-hop join: the workflow components of
    the solution, then the workflows with the ids they refer to. *)
Definition solution_workflows (client : loc) (solution_id : json) : M json :=
  do component_result <-
    DataverseClient_get client "solutioncomponents" (Some (component_params solution_id));
  let components := format_response component_result in
  if negb (py_truthy components) then ret (JList [])
  else
    do items <- py_iter components;
    do workflow_ids <- object_ids items;
    if negb (match workflow_ids with [] => false | _ => true end) then ret (JList [])
    else
      let id_filters :=
        Str.join " or " (map (fun wid => "workflowid eq " +:+ py_str wid) workflow_ids) in
      let params :=
        [("$filter", JStr ("category eq 5 and (" +:+ id_filters +:+ ")"));
         ("$select", JStr "workflowid,name,statecode,createdon,modifiedon");
         ("$orderby", JStr "modifiedon desc")] in
      do result <- DataverseClient_get client "workflows" (Some params);
      ret (format_response result).

Definition list_solution_flows (solution_id name : option string) (table_format : bool)
  : M unit :=
  command
    (do client <- get_client;
     do solution_id <- resolve_solution_id client solution_id name;
     do flows <- solution_workflows client solution_id;
     show_flows table_format flows).

End Commands.

(** ** delete_connector.py *)

(** The test of the [except ClientError as e] block:
    ["referenced by" in str(e).lower()]. *)
Definition is_dependency_error (e : exn) : bool :=
  Str.contains "referenced by" (Str.lower (exn_str e)).

(** ** The request each method sends *)

(** The request a method sends for a client object in state [c]. *)
Definition request_of (c : DataverseClient) (m : Method) (endpoint : string)
    (params : option (list (string * json))) (body : option json) : Request :=
  mkRequest m (api_base c +:+ "/" +:+ endpoint) params body (session_headers c).

(** The client object once [post], respectively [patch], has set its headers. *)
Definition posting (c : DataverseClient) : DataverseClient :=
  with_header "Prefer" "return=representation" (with_header "Content-Type" "application/json" c).

Definition patching (c : DataverseClient) : DataverseClient :=
  with_header "Content-Type" "application/json" c.

(** ** Sequences of operations on one client *)

Inductive Op :=
| OpGet (endpoint : string) (params : option (list (string * json)))
| OpPost (endpoint : string) (data : json)
| OpPatch (endpoint : string) (data : json)
| OpDelete (endpoint : string).

(** A caller that issues operations on one client in order, going on after
    one that failed. *)
Definition run_op `{X : External} (self : loc) (op : Op) (w : World) : World :=
  match op with
  | OpGet endpoint params => snd (DataverseClient_get self endpoint params w)
  | OpPost endpoint data => snd (DataverseClient_post self endpoint data w)
  | OpPatch endpoint data => snd (DataverseClient_patch self endpoint data w)
  | OpDelete endpoint => snd (DataverseClient_delete self endpoint w)
  end.

Definition run_ops `{X : External} (self : loc) (ops : list Op) (w : World) : World :=
  fold_left (fun w op => run_op self op w) ops w.

Definition is_post (op : Op) : bool :=
  match op with OpPost _ _ => true | _ => false end.

Definition is_write (op : Op) : bool :=
  match op with OpPost _ _ | OpPatch _ _ => true | _ => false end.

(** The client object after an operation. *)
Definition client_after (op : Op) (c : DataverseClient) : DataverseClient :=
  match op with
  | OpPost _ _ => posting c
  | OpPatch _ _ => patching c
  | _ => c
  end.

(** ** Reference values *)

(** Modelled from the spec: [format_response] of output.py, which is not among
    the sources.  A response object with a ["value"] entry (the list wrapper
    of the API) is unwrapped to that entry; anything else is returned as is. *)
Definition unwrap_value (result : json) : json :=
  match result with
  | JDict d =>
      if existsb (fun kv => String.eqb kv.1 "value") d then dict_get "value" d else result
  | _ => result
  end.

(** The double quote, for the JSON texts below. *)
Definition dq : string := String "034"%char EmptyString.

(** [{"value": []}] and [{"error":{"message":"Not Found"}}] *)
Definition empty_collection_text : string := "{" +:+ dq +:+ "value" +:+ dq +:+ ": []}".

Definition not_found_text : string :=
  "{" +:+ dq +:+ "error" +:+ dq +:+ ":{" +:+ dq +:+ "message" +:+ dq +:+ ":"
  +:+ dq +:+ "Not Found" +:+ dq +:+ "}}".

(** A decoder that knows a few texts. *)
Definition sample_decode (s : string) : string + json :=
  if String.eqb s empty_collection_text then inr (JDict [("value", JList [])])
  else if String.eqb s "[]" then inr (JList [])
  else if String.eqb s "{}" then inr (JDict [])
  else if String.eqb s "[{}]" then inr (JList [JDict []])
  else if String.eqb s "[1]" then inr (JList [JNum 1])
  else inl "Expecting value".

Definition sample_eq (a b : json) : bool :=
  match a, b with
  | JStr x, JStr y => String.eqb x y
  | JNum x, JNum y => x =? y
  | JNull, JNull => true
  | _, _ => false
  end.

(** Surroundings with a given environment, one answer of the identity
    provider and a server that answers by request. *)
Definition sample_external (env : string -> option string)
    (idp : exn + list (string * string)) (server : Request -> Outcome) : External :=
  {| getenv := env;
     acquire_token_for_client := fun _ _ _ _ _ => idp;
     acquire_token_by_username_password := fun _ _ _ _ _ _ => idp;
     http_send := fun _ req => server req;
     json_decode := sample_decode;
     default_user_agent := "python-requests/2.31.0";
     default_accept_encoding := "gzip, deflate";
     py_repr := fun _ => "[...]";
     py_eq := sample_eq;
     format_response := unwrap_value;
     handle_api_error := fun _ => 1 |}.

Definition env_of (vars : list (string * string)) (var : string) : option string :=
  snd <$> find (fun kv => String.eqb kv.1 var) vars.

Definition token_env : string -> option string :=
  env_of [("DATAVERSE_URL", "https://org.crm.dynamics.com/");
          ("DATAVERSE_ACCESS_TOKEN", "eyJ0eXAi")].

Definition service_principal_env : string -> option string :=
  env_of [("DATAVERSE_URL", "https://org.crm.dynamics.com");
          ("DATAVERSE_CLIENT_ID", "app-id");
          ("DATAVERSE_CLIENT_SECRET", "s3cret");
          ("DATAVERSE_TENANT_ID", "tenant")].

Definition user_env : string -> option string :=
  env_of [("DATAVERSE_URL", "https://org.crm.dynamics.com");
          ("DATAVERSE_CLIENT_ID", "app-id");
          ("DATAVERSE_TENANT_ID", "tenant");
          ("DATAVERSE_USERNAME", "ada@example.com");
          ("DATAVERSE_PASSWORD", "pw")].

Definition token_granted : exn + list (string * string) :=
  inr [("token_type", "Bearer"); ("access_token", "eyJhbGci")].

Definition token_refused : exn + list (string * string) :=
  inr [("error", "invalid_client"); ("error_description", "AADSTS7000215: Invalid client secret")].

Definition answer (status : Z) (reason body : string) (hdrs : list (string * string))
  : Request -> Outcome :=
  fun _ => Responded {| status_code := status; reason := reason; text := body;
                        headers := ci_update hdrs ∅ |}.

(** The process at start: nothing cached, nothing allocated, nothing done. *)
Definition fresh : World := {| _config := None; _client := None; heap := []; trace := [] |}.

(** Servers that answer every request alike, for a process configured with a token. *)
Definition not_found_server : External :=
  sample_external token_env token_granted (answer 404 "Not Found" not_found_text []).

Definition not_modified_server : External :=
  sample_external token_env token_granted (answer 304 "Not Modified" "" []).

(** The client object built from [token_env]; it is at address 0 once
    [get_client] has run in [fresh]. *)
Definition token_client : DataverseClient :=
  {| client_url := "https://org.crm.dynamics.com";
     client_token := Some "eyJ0eXAi";
     api_base := "https://org.crm.dynamics.com/api/data/v9.2";
     session_headers :=
       ci_update (client_default_headers (Some "eyJ0eXAi"))
         (default_headers (X := not_found_server)) |}.

Definition connected : World :=
  {| _config := Some (Config_init token_env); _client := Some 0%nat;
     heap := [token_client]; trace := [] |}.

(** Following the spec's words for the entity id of a creation response: the
    text between the first "(" of the header and the ")" that matches it;
    [None] when the header has no "(" or that "(" is never closed. *)
Fixpoint upto_matching (depth : nat) (s : string) : option string :=
  match s with
  | EmptyString => None
  | String c s' =>
      if Ascii.eqb c ")" then
        match depth with
        | O => Some EmptyString
        | S d => String c <$> upto_matching d s'
        end
      else if Ascii.eqb c "(" then String c <$> upto_matching (S depth) s'
      else String c <$> upto_matching depth s'
  end.

Fixpoint spec_entity_id (s : string) : option string :=
  match s with
  | EmptyString => None
  | String c s' => if Ascii.eqb c "(" then upto_matching 0 s' else spec_entity_id s'
  end.

(** A server that answers every request with 204 and the given entity header. *)
Definition created_server (entity_id_header : string) : External :=
  sample_external token_env token_granted
    (answer 204 "No Content" "" [("OData-EntityId", entity_id_header)]).

Definition workflow_entity_header : string :=
  "https://org.crm.dynamics.com/api/data/v9.2/workflows(29e2253b-cabc-f011-bbd3-000d3a8ba54e)".

(** Processes configured for a service principal, respectively for a user only. *)
Definition service_principal_process : External :=
  sample_external service_principal_env token_granted (answer 200 "OK" "[]" []).

Definition refused_process : External :=
  sample_external service_principal_env token_refused (answer 200 "OK" "[]" []).

Definition user_process : External :=
  sample_external user_env token_granted (answer 200 "OK" "[]" []).

(** [isinstance(v, dict)] *)
Definition is_dict (v : json) : bool :=
  match v with JDict _ => true | _ => false end.

(** A flow record once the table formatting has set its ["state"]. *)
Definition with_state (d : list (string * json)) : json :=
  JDict (dict_set "state"
           (JStr (if is_one (dict_get "statecode" d) then "Activated" else "Draft")) d).

Definition flow_table_columns : list string := ["name"; "workflowid"; "state"; "modifiedon"].

(** A server whose collections are all empty. *)
Definition empty_server : External :=
  sample_external token_env token_granted (answer 200 "OK" empty_collection_text []).

(** A server with one flow and no solution. *)
Definition one_flow_server : External :=
  sample_external token_env token_granted
    (fun req =>
       if Str.contains "/solutions" (req_url req)
       then answer 200 "OK" empty_collection_text [] req
       else answer 200 "OK" "[{}]" [] req).

(** ** The rest of config.py, commands/flow.py, commands/solution.py and
    commands/entity.py *)

(** [reset_config] of config.py *)
Definition reset_config : M unit :=
  fun w => (inr tt, {| _config := None; _client := _client w;
                       heap := heap w; trace := trace w |}).

(** The entry of a key among the items of a dict, when there is one. *)
Fixpoint dict_find (k : string) (d : list (string * json)) : option json :=
  match d with
  | [] => None
  | (k', v) :: d' => if String.eqb k k' then Some v else dict_find k d'
  end.

(** Truth value of an [Optional[int]]: [None] and [0] are false. *)
Definition truthy_int (o : option Z) : bool :=
  match o with
  | Some z => negb (z =? 0)
  | None => false
  end.

Section MoreCommands.

Context `{X : External}.

(** [v.get(k, dflt)] *)
Definition py_get_default (v : json) (k : string) (dflt : json) : M json :=
  match v with
  | JDict d => ret (default dflt (dict_find k d))
  | _ => raise (AttributeError (no_attribute v "get"))
  end.

(** [list(v.keys())] *)
Definition py_keys (v : json) : M (list string) :=
  match v with
  | JDict d => ret (map fst d)
  | _ => raise (AttributeError (no_attribute v "keys"))
  end.

(** [print_json(formatted[0])] when the value is a non-empty list, else
    [print_json(formatted)]: the end of [get_solution --name] and of
    [get_entity_metadata]. *)
Definition print_first_or_all (formatted : json) : M unit :=
  if is_list formatted && py_truthy formatted then
    do first <- py_first formatted;
    emit (EvPrintJson first)
  else emit (EvPrintJson formatted).

(** *** commands/flow.py *)


(** *** commands/entity.py *)

(** The query parameters [query_entity] builds from its options. *)
Definition query_params (filter_query select orderby : option string) (top : option Z)
  : list (string * json) :=
  let params : list (string * json) := [] in
  let params :=
    if truthy filter_query then params ++ [("$filter", of_opt filter_query)] else params in
  let params :=
    if truthy select then params ++ [("$select", of_opt select)] else params in
  let params :=
    if truthy orderby then params ++ [("$orderby", of_opt orderby)] else params in
  let params :=
    if truthy_int top then params ++ [("$top", JNum (default 0 top))] else params in
  params.

Definition query_entity (entity_name : string) (filter_query select orderby : option string)
    (top : option Z) (table_format : bool) : M unit :=
  command
    (do client <- get_client;
     let params := query_params filter_query select orderby top in
     do result <- DataverseClient_get client entity_name (Some params);
     let data := format_response result in
     if table_format && is_list data && py_truthy data then
       do first <- py_first data;
       do columns <- py_keys first;
       let columns := if (6 <? length columns)%nat then take 6 columns else columns in
       emit (EvPrintTable data columns)
     else emit (EvPrintJson data)).


Definition count_params (filter_query : option string) : list (string * json) :=
  let params := [("$count", JStr "true"); ("$top", JNum 1)] in
  if truthy filter_query then params ++ [("$filter", of_opt filter_query)] else params.

Definition count_records (entity_name : string) (filter_query : option string) : M unit :=
  command
    (do client <- get_client;
     let params := count_params filter_query in
     do result <- DataverseClient_get client entity_name (Some params);
     do count <- py_get_default result "@odata.count" (JNum 0);
     emit (EvPrintJson (JDict [("entity", JStr entity_name); ("count", count)]))).

Definition get_entity_metadata (entity_name : string) : M unit :=
  command
    (do client <- get_client;
     let params :=
       [("$filter", JStr ("LogicalName eq '" +:+ entity_name +:+ "'"));
        ("$select",
         JStr "LogicalName,DisplayName,PrimaryIdAttribute,PrimaryNameAttribute,EntitySetName")] in
     do result <- DataverseClient_get client "EntityDefinitions" (Some params);
     let formatted := format_response result in
     print_first_or_all formatted).

End MoreCommands.

Section SolutionCommands.

Context `{X : External}.

(** *** commands/solution.py *)

(** The query parameters of [list_solutions]; [str(managed).lower()] is
    ["true"] or ["false"]. *)
Definition solutions_params (managed : option bool) : list (string * json) :=
  let params :=
    [("$select", JStr "solutionid,friendlyname,uniquename,version,ismanaged,installedon");
     ("$orderby", JStr "friendlyname")] in
  match managed with
  | Some b =>
      params ++ [("$filter",
                  JStr ("ismanaged eq " +:+ Str.lower (if b then "True" else "False")))]
  | None => params
  end.

(** [for solution in solutions: solution["managed"] = "Yes" if solution.get("ismanaged") else "No"] *)
Fixpoint set_managed (solutions : list json) : M (list json) :=
  match solutions with
  | [] => ret []
  | solution :: rest =>
      do ismanaged <- py_get solution "ismanaged";
      let managed := if py_truthy ismanaged then "Yes" else "No" in
      match solution with
      | JDict d =>
          do rest' <- set_managed rest;
          ret (JDict (dict_set "managed" (JStr managed) d) :: rest')
      | _ => raise (TypeError (no_item_assignment solution))
      end
  end.

Definition list_solutions (managed : option bool) (table_format : bool) : M unit :=
  command
    (do client <- get_client;
     let params := solutions_params managed in
     do result <- DataverseClient_get client "solutions" (Some params);
     let solutions := format_response result in
     if table_format && is_list solutions then
       do items <- py_iter solutions;
       do rows <- set_managed items;
       emit (EvPrintTable (JList rows) ["friendlyname"; "uniquename"; "version"; "managed"])
     else emit (EvPrintJson solutions)).

Definition get_solution (solution_id name : option string) : M unit :=
  command
    (do client <- get_client;
     if truthy solution_id then
       do result <-
         DataverseClient_get client ("solutions(" +:+ str_of_opt solution_id +:+ ")") None;
       let formatted := format_response result in
       emit (EvPrintJson formatted)
     else if truthy name then
       let params := [("$filter", JStr ("friendlyname eq '" +:+ str_of_opt name +:+ "'"))] in
       do result <- DataverseClient_get client "solutions" (Some params);
       let formatted := format_response result in
       print_first_or_all formatted
     else
       run emit (EvEcho "Error: Either --id or --name must be provided");
       raise (Exit 1)).

(** The [--type] option is declared and not used. *)
Definition list_solution_components (solution_id name component_type : option string)
  : M unit :=
  command
    (do client <- get_client;
     do solution_id <- resolve_solution_id client solution_id name;
     let params :=
       [("$filter", JStr ("_solutionid_value eq " +:+ py_str solution_id));
        ("$select", JStr "solutioncomponentid,componenttype,objectid,createdon")] in
     do result <- DataverseClient_get client "solutioncomponents" (Some params);
     let components := format_response result in
     emit (EvPrintJson components)).

End SolutionCommands.

(** ** The rest of delete_connector.py *)

Section DeleteConnector.

Context `{X : External}.

(** [json.dumps(v, indent=2)] *)
Variable json_dumps : json -> string.

(** [print(s)]: a line on the console, recorded like the lines of [typer.echo]. *)
Definition py_print (s : string) : M unit := emit (EvEcho s).

(** [except ClientError as e: h e]; any other exception goes on. *)
Definition except_ClientError {A} (m : M A) (h : exn -> M A) : M A :=
  try_except m (fun e => match e with
                         | ClientError _ => h e
                         | _ => raise e
                         end).

(** The result is the response object, or [None] when the request failed. *)
Definition retrieve_dependencies (client : loc) (connector_id : string) : M json :=
  let endpoint := "RetrieveDependenciesForDelete" in
  let data := JDict [("ObjectId", JStr connector_id); ("ComponentType", JNum 372)] in
  except_ClientError
    (DataverseClient_post client endpoint data)
    (fun e =>
       run py_print ("Error retrieving dependencies: " +:+ exn_str e);
       ret JNull).

Definition dependency_advice : list string :=
  [nl +:+ "The connector has dependencies that must be removed first.";
   "This may be an orphaned internal dependency.";
   nl +:+ "Options:";
   "1. Remove the connector from the Power Automate portal";
   "2. Use PowerShell with Remove-CrmRecord -Force";
   "3. Contact support if the dependency is orphaned"].

Fixpoint print_lines (lines : list string) : M unit :=
  match lines with
  | [] => ret tt
  | l :: rest => run py_print l; print_lines rest
  end.

(** [force] is accepted and not used. *)
Definition delete_connector (connector_id : string) (force : bool) : M bool :=
  except_ClientError
    (do client <- get_client;
     run py_print ("Fetching connector " +:+ connector_id +:+ "...");
     do connector <-
       DataverseClient_get client ("connectors(" +:+ connector_id +:+ ")")
         (Some [("$select", JStr "connectorid,name,displayname")]);
     do displayname <- py_get connector "displayname";
     do name <- py_get connector "name";
     run py_print ("Found connector: " +:+ py_str displayname
                   +:+ " (" +:+ py_str name +:+ ")");
     run py_print (nl +:+ "Checking for dependencies...");
     do dependencies <- retrieve_dependencies client connector_id;
     run (if py_truthy dependencies
          then py_print ("Dependencies found: " +:+ json_dumps dependencies)
          else ret tt);
     run py_print (nl +:+ "Attempting to delete connector " +:+ connector_id +:+ "...");
     run DataverseClient_delete client ("connectors(" +:+ connector_id +:+ ")");
     run py_print ("✓ Successfully deleted connector " +:+ connector_id);
     ret true)
    (fun e =>
       run py_print ("✗ Failed to delete connector: " +:+ exn_str e);
       run (if is_dependency_error e then print_lines dependency_advice else ret tt);
       ret false).

End DeleteConnector.

(** ** More reference values *)

(** A server that cannot be reached. *)
Definition unreachable_server : External :=
  sample_external token_env token_granted (fun _ => TransportFailure "Connection refused").

(** A server that answers every request with 200 and the empty list. *)
Definition empty_list_server : External :=
  sample_external token_env token_granted (answer 200 "OK" "[]" []).

(** A server that answers every request with a redirection it does not
    follow up, its body a page of HTML. *)
Definition html_server : External :=
  sample_external token_env token_granted (answer 302 "Found" "<html>moved</html>" []).


(** An HTTP request among the events. *)
Definition is_http_request (ev : Event) : bool :=
  match ev with EvHttp _ => true | _ => false end.

(** The entry of a record for a key, [None] (null) when the value is not a
    record or has no such key. *)
Definition entry (k : string) (v : json) : json :=
  match v with JDict d => dict_get k d | _ => JNull end.

(** A decoder given by a table of texts. *)
Definition decode_table (table : list (string * json)) (s : string) : string + json :=
  match find (fun kv => String.eqb kv.1 s) table with
  | Some kv => inr kv.2
  | None => inl "Expecting value"
  end.

(** Surroundings with a token, a server that answers 200 with a body chosen
    by the request, and a decoder for those bodies. *)
Definition canned (body : Request -> string) (table : list (string * json)) : External :=
  {| getenv := token_env;
     acquire_token_for_client := fun _ _ _ _ _ => token_granted;
     acquire_token_by_username_password := fun _ _ _ _ _ _ => token_granted;
     http_send := fun _ req => answer 200 "OK" (body req) [] req;
     json_decode := decode_table table;
     default_user_agent := "python-requests/2.31.0";
     default_accept_encoding := "gzip, deflate";
     py_repr := fun _ => "[...]";
     py_eq := sample_eq;
     format_response := unwrap_value;
     handle_api_error := fun _ => 1 |}.

(** Two flows, one of them in the solution ["s-1"], and a solution lookup
    that finds ["s-1"]. *)
Definition flow_a : json :=
  JDict [("workflowid", JStr "f-a"); ("name", JStr "A"); ("statecode", JNum 1);
         ("solutionid", JStr "s-1")].

Definition flow_b : json :=
  JDict [("workflowid", JStr "f-b"); ("name", JStr "B"); ("statecode", JNum 0);
         ("solutionid", JStr "s-2")].

Definition two_flows_server : External :=
  canned (fun req => if Str.contains "/solutions" (req_url req) then "SOLUTIONS"
                     else if Str.contains "/solutioncomponents" (req_url req)
                          then "COMPONENTS"
                          else "FLOWS")
    [("FLOWS", JDict [("value", JList [flow_a; flow_b])]);
     ("SOLUTIONS", JDict [("value", JList [JDict [("solutionid", JStr "s-1")];
                                           JDict [("solutionid", JStr "s-2")]])]);
     ("COMPONENTS", JDict [("value", JList [JDict [("objectid", JStr "f-a")];
                                            JDict [("componenttype", JNum 29)];
                                            JDict [("objectid", JStr "f-b")]])])].

(** A server that finds every record, refuses every action and deletes on
    request: GET is answered 200 with an empty record, POST 404, DELETE 204. *)
Definition refusing_actions_server : External :=
  sample_external token_env token_granted
    (fun req =>
       match req_method req with
       | POST => answer 404 "Not Found" not_found_text [] req
       | DELETE => answer 204 "No Content" "" [] req
       | _ => answer 200 "OK" "{}" [] req
       end).

(** Two solutions, the first of them managed. *)
Definition solution_a : json :=
  JDict [("solutionid", JStr "s-1"); ("friendlyname", JStr "A"); ("ismanaged", JBool true)].

Definition solution_b : json :=
  JDict [("solutionid", JStr "s-2"); ("friendlyname", JStr "B"); ("ismanaged", JBool false)].

Definition two_solutions_server : External :=
  canned (fun _ => "SOLUTIONS") [("SOLUTIONS", JDict [("value", JList [solution_a; solution_b])])].

(** A server whose answer holds two records and no count. *)
Definition uncounted_server : External :=
  canned (fun _ => "RECORDS") [("RECORDS", JDict [("value", JList [flow_a; flow_b])])].

(** ** Proof automation for the monadic code *)

Ltac crunch :=
  repeat (case_match;
          unfold bind, try_except, raise, ret, lift_sum, token_of_result, get_trace, emit,
            alloc, set_client in *;
          simplify_eq; simpl in *; try done).

Ltac run_get_client :=
  unfold get_client, read_client, get_config, bind, try_except, set_client, ret, raise,
    DataverseClient_init, alloc, _get_service_principal_token, _get_user_token,
    token_of_result, lift_sum, get_trace, emit in *.

(** * Properties *)

(** ** Configuration *)

Lemma truthy_Some_nonempty (o : option string) :
  truthy o = true <-> exists s, o = Some s /\ s <> "".
Proof.
  split.
  - destruct o as [[|a s]|]; simpl; intros Ht; try discriminate.
    exists (String a s). split; [reflexivity | discriminate].
  - intros (s & -> & Hs). destruct s; [contradiction | reflexivity].
Qed.

Lemma token_auth_iff (c : Config) :
  has_token_auth c = true <->
  truthy (access_token c) = true /\ truthy (dataverse_url c) = true.
Proof.
  unfold has_token_auth, py_and.
  destruct (truthy (access_token c)) eqn:Ha.
  - tauto.
  - rewrite Ha. split; [discriminate | intros [? _]; discriminate].
Qed.

(** C5. A configuration whose access token and base URL are both present
    (non-empty) has token authentication, whatever its other fields hold, and
    reports no missing credential. *)
Theorem token_auth_is_sufficient (c : Config) (token url : string) :
  access_token c = Some token -> token <> "" ->
  dataverse_url c = Some url -> url <> "" ->
  has_token_auth c = true /\ get_missing_credentials c = [].
Proof.
  intros Ht Hte Hu Hue.
  assert (Hta : has_token_auth c = true).
  { apply token_auth_iff. split; apply truthy_Some_nonempty; eauto. }
  split; [exact Hta |].
  unfold get_missing_credentials. unfold has_token_auth in Hta. now rewrite Hta.
Qed.

Lemma token_auth_is_sufficient_witness :
  let c := {| dataverse_url := Some "https://org.crm.dynamics.com";
              environment_id := None; client_id := None; client_secret := None;
              tenant_id := None; username := None; password := None;
              access_token := Some "eyJ0eXAi" |} in
  has_token_auth c = true /\ get_missing_credentials c = [].
Proof.
  apply (token_auth_is_sufficient _ "eyJ0eXAi" "https://org.crm.dynamics.com");
    simpl; (reflexivity || discriminate).
Defined.

Lemma missing_without_token (c : Config) :
  truthy (access_token c) = false ->
  get_missing_credentials c = filter (fun var => absent c var = true) service_principal_vars.
Proof.
  intros Ht. unfold get_missing_credentials, py_and. rewrite Ht, Ht.
  unfold service_principal_vars. rewrite !filter_cons, filter_nil.
  unfold absent, Config_field. simpl.
  destruct (truthy (dataverse_url c)), (truthy (client_id c)),
    (truthy (client_secret c)), (truthy (tenant_id c)); reflexivity.
Qed.

(** C6. A configuration without an access token reports exactly the absent
    variables of the service-principal set, in the order of that set and
    nothing else; this holds as well when the configuration is complete for
    user authentication, which then still reports a missing client secret. *)
Theorem missing_is_absent_service_principal_vars (c : Config) :
  truthy (access_token c) = false ->
  get_missing_credentials c = filter (fun var => absent c var = true) service_principal_vars
  /\ (forall var, var ∈ get_missing_credentials c <->
                  var ∈ service_principal_vars /\ absent c var = true)
  /\ (has_user_auth c = true -> truthy (client_secret c) = false ->
      get_missing_credentials c = ["DATAVERSE_CLIENT_SECRET"]).
Proof.
  intros Ht. pose proof (missing_without_token c Ht) as Hm.
  split; [exact Hm |]. split.
  - intros var. rewrite Hm, list_elem_of_filter. tauto.
  - intros Hu Hs. rewrite Hm. unfold has_user_auth, py_all in Hu. simpl in Hu.
    repeat (apply andb_prop in Hu as [? Hu]).
    unfold service_principal_vars. rewrite !filter_cons, filter_nil.
    unfold absent, Config_field. simpl.
    repeat match goal with
           | Hx : truthy _ = _ |- _ => rewrite Hx; clear Hx
           end.
    reflexivity.
Qed.

Lemma missing_is_absent_service_principal_vars_witness :
  let c := {| dataverse_url := Some "https://org.crm.dynamics.com";
              environment_id := None; client_id := Some "app";
              client_secret := None; tenant_id := Some "";
              username := Some "ada"; password := Some "pw";
              access_token := None |} in
  get_missing_credentials c = ["DATAVERSE_CLIENT_SECRET"; "DATAVERSE_TENANT_ID"].
Proof.
  intros c.
  destruct (missing_is_absent_service_principal_vars c eq_refl) as [Hm _].
  rewrite Hm. reflexivity.
Defined.

(** ** Strings *)

Lemma startswith_app (p s : string) : Str.startswith p (p +:+ s) = true.
Proof.
  induction p as [|a p IH]; simpl; [reflexivity |].
  rewrite Ascii.eqb_refl. exact IH.
Qed.

Lemma contains_prefix (p s : string) : Str.contains p (p +:+ s) = true.
Proof.
  destruct p as [|a p]; [destruct s; reflexivity |].
  change (Str.contains (String a p) (String a p +:+ s))
    with (Str.startswith (String a p) (String a p +:+ s)
          || Str.contains (String a p) (p +:+ s)).
  now rewrite startswith_app.
Qed.

Lemma contains_skip (n a s : string) :
  Str.contains n s = true -> Str.contains n (a +:+ s) = true.
Proof.
  intros Hn. induction a as [|c a IH]; [exact Hn |].
  change (Str.contains n (String c a +:+ s))
    with (Str.startswith n (String c (a +:+ s)) || Str.contains n (a +:+ s)).
  rewrite IH. apply orb_true_r.
Qed.

Lemma contains_self (s : string) : Str.contains s s = true.
Proof.
  destruct s as [|a s]; [reflexivity |]. simpl.
  rewrite Ascii.eqb_refl.
  replace (Str.startswith s s) with true; [reflexivity |].
  symmetry. clear a. induction s as [|b s IH]; simpl; [reflexivity |].
  now rewrite Ascii.eqb_refl.
Qed.

Lemma lower_app (a b : string) : Str.lower (a +:+ b) = Str.lower a +:+ Str.lower b.
Proof. induction a as [|c a IH]; simpl; [reflexivity | now rewrite IH]. Qed.

(** ** The monad *)

Lemma bind_inr {A B} (m : M A) (k : A -> M B) (w w' : World) (a : A) :
  m w = (inr a, w') -> bind m k w = k a w'.
Proof. intros Hm. unfold bind. now rewrite Hm. Qed.

Lemma bind_inl {A B} (m : M A) (k : A -> M B) (w w' : World) (e : exn) :
  m w = (inl e, w') -> bind m k w = (inl e, w').
Proof. intros Hm. unfold bind. now rewrite Hm. Qed.

Lemma try_except_inr {A} (m : M A) (h : exn -> M A) (w w' : World) (a : A) :
  m w = (inr a, w') -> try_except m h w = (inr a, w').
Proof. intros Hm. unfold try_except. now rewrite Hm. Qed.

Lemma try_except_inl {A} (m : M A) (h : exn -> M A) (w w' : World) (e : exn) :
  m w = (inl e, w') -> try_except m h w = h e w'.
Proof. intros Hm. unfold try_except. now rewrite Hm. Qed.

Lemma deref_run (self : loc) (c : DataverseClient) (w : World) :
  heap w !! self = Some c -> deref self w = (inr c, w).
Proof. intros Hc. unfold deref. now rewrite Hc. Qed.

Lemma set_session_header_run (self : loc) (c : DataverseClient) (k v : string) (w : World) :
  heap w !! self = Some c ->
  set_session_header self k v w = (inr tt, with_heap (<[self := with_header k v c]> (heap w)) w)
  /\ heap (with_heap (<[self := with_header k v c]> (heap w)) w) !! self
     = Some (with_header k v c).
Proof.
  intros Hc. unfold set_session_header. rewrite Hc. split; [reflexivity |].
  simpl. apply list_lookup_insert_eq. eapply lookup_lt_Some, Hc.
Qed.

(** ** API client *)

Section ClientFacts.

Context `{X : External}.

Lemma session_request_run (self : loc) (c : DataverseClient) (m : Method) (url : string)
    (params : option (list (string * json))) (body : option json) (w : World) :
  heap w !! self = Some c ->
  let req := mkRequest m url params body (session_headers c) in
  session_request self m url params body w =
    (match http_send (trace w) req with
     | Responded r => inr r
     | TransportFailure msg => inl (RequestException msg)
     end, with_event (EvHttp req) w).
Proof.
  intros Hc req. unfold session_request.
  rewrite (bind_inr _ _ w w c (deref_run _ _ _ Hc)).
  unfold bind, get_trace, emit. fold req. simpl.
  destruct (http_send (trace w) req); reflexivity.
Qed.

Lemma raise_for_status_error (url : string) (r : Response) :
  400 <= status_code r < 600 ->
  exists m, forall w, raise_for_status url r w = (inl (HTTPError m r), w).
Proof.
  intros Hr. unfold raise_for_status.
  destruct (status_code r <? 500) eqn:H5.
  - replace (400 <=? status_code r) with true by (symmetry; apply Z.leb_le; lia).
    simpl. eexists. intros w. reflexivity.
  - rewrite andb_false_r.
    replace (500 <=? status_code r) with true
      by (symmetry; apply Z.leb_le; apply Z.ltb_ge in H5; lia).
    replace (status_code r <? 600) with true by (symmetry; apply Z.ltb_lt; lia).
    simpl. eexists. intros w. reflexivity.
Qed.

Lemma raise_for_status_pass (url : string) (r : Response) (w : World) :
  ~ (400 <= status_code r < 600) -> raise_for_status url r w = (inr tt, w).
Proof.
  intros Hr. unfold raise_for_status.
  destruct (400 <=? status_code r) eqn:H4, (status_code r <? 500) eqn:H5,
    (500 <=? status_code r) eqn:H50, (status_code r <? 600) eqn:H6; simpl;
    try reflexivity; exfalso; apply Hr; lia.
Qed.

End ClientFacts.

Section MethodWorlds.

Context `{X : External}.

(** What a method leaves behind depends on the request it sent only. *)
Lemma get_world (self : loc) (c : DataverseClient) (endpoint : string)
    (params : option (list (string * json))) (w : World) :
  heap w !! self = Some c ->
  snd (DataverseClient_get self endpoint params w)
  = with_event (EvHttp (request_of c GET endpoint params None)) w.
Proof.
  intros Hc. unfold DataverseClient_get.
  rewrite (bind_inr _ _ w w c (deref_run _ _ _ Hc)).
  unfold try_except, bind at 1. rewrite (session_request_run self c) by exact Hc.
  unfold request_of.
  destruct (http_send _ _) as [r|msg]; [|reflexivity].
  unfold bind, raise_for_status, json_or_empty, response_json, to_client_error, ret, raise.
  repeat case_match; simplify_eq; reflexivity.
Qed.

Lemma delete_world (self : loc) (c : DataverseClient) (endpoint : string) (w : World) :
  heap w !! self = Some c ->
  snd (DataverseClient_delete self endpoint w)
  = with_event (EvHttp (request_of c DELETE endpoint None None)) w.
Proof.
  intros Hc. unfold DataverseClient_delete.
  rewrite (bind_inr _ _ w w c (deref_run _ _ _ Hc)).
  unfold try_except, bind at 1. rewrite (session_request_run self c) by exact Hc.
  unfold request_of.
  destruct (http_send _ _) as [r|msg]; [|reflexivity].
  unfold raise_for_status, to_client_error, ret, raise.
  repeat case_match; simplify_eq; reflexivity.
Qed.

Lemma patch_world (self : loc) (c : DataverseClient) (endpoint : string) (data : json)
    (w : World) :
  heap w !! self = Some c ->
  snd (DataverseClient_patch self endpoint data w)
  = with_event (EvHttp (request_of (patching c) PATCH endpoint None (Some data)))
      (with_heap (<[self := patching c]> (heap w)) w).
Proof.
  intros Hc. unfold DataverseClient_patch.
  rewrite (bind_inr _ _ w w c (deref_run _ _ _ Hc)).
  destruct (set_session_header_run self c "Content-Type" "application/json" w Hc)
    as [E1 Hc1].
  rewrite (bind_inr _ _ _ _ tt E1).
  unfold try_except, bind at 1.
  rewrite (session_request_run self (patching c)) by exact Hc1.
  unfold request_of. simpl trace.
  destruct (http_send _ _) as [r|msg]; [|reflexivity].
  unfold bind, raise_for_status, json_or_empty, response_json, to_client_error, ret, raise.
  repeat case_match; simplify_eq; reflexivity.
Qed.

Lemma post_world (self : loc) (c : DataverseClient) (endpoint : string) (data : json)
    (w : World) :
  heap w !! self = Some c ->
  snd (DataverseClient_post self endpoint data w)
  = with_event (EvHttp (request_of (posting c) POST endpoint None (Some data)))
      (with_heap (<[self := posting c]> (heap w)) w).
Proof.
  intros Hc. unfold DataverseClient_post.
  rewrite (bind_inr _ _ w w c (deref_run _ _ _ Hc)).
  destruct (set_session_header_run self c "Content-Type" "application/json" w Hc)
    as [E1 Hc1].
  rewrite (bind_inr _ _ _ _ tt E1).
  destruct (set_session_header_run self _ "Prefer" "return=representation" _ Hc1)
    as [E2 Hc2].
  rewrite (bind_inr _ _ _ _ tt E2).
  unfold try_except, bind at 1.
  rewrite (session_request_run self (posting c)) by exact Hc2.
  unfold request_of. simpl trace. simpl heap. rewrite list_insert_insert_eq.
  destruct (http_send _ _) as [r|msg]; [|reflexivity].
  unfold bind, raise_for_status, json_or_empty, response_json, to_client_error,
    entity_id_of, ret, raise.
  repeat case_match; simplify_eq; reflexivity.
Qed.

End MethodWorlds.

Example get_client_token_env :
  get_client (X := not_found_server) fresh = (inr 0%nat, connected).
Proof. vm_compute. reflexivity. Qed.

(** ** What the methods make of an outcome *)

Section MethodOutcomes.

Context `{X : External}.

Lemma get_responded (self : loc) (c : DataverseClient) (endpoint : string)
    (params : option (list (string * json))) (r : Response) (w : World) :
  heap w !! self = Some c ->
  http_send (trace w) (request_of c GET endpoint params None) = Responded r ->
  DataverseClient_get self endpoint params w
  = try_except
      (run raise_for_status (api_base c +:+ "/" +:+ endpoint) r; json_or_empty r)
      to_client_error
      (with_event (EvHttp (request_of c GET endpoint params None)) w).
Proof.
  intros Hc Hs. unfold DataverseClient_get.
  rewrite (bind_inr _ _ w w c (deref_run _ _ _ Hc)).
  unfold try_except, bind at 1. rewrite (session_request_run self c) by exact Hc.
  unfold request_of in Hs. rewrite Hs. reflexivity.
Qed.

Lemma delete_responded (self : loc) (c : DataverseClient) (endpoint : string)
    (r : Response) (w : World) :
  heap w !! self = Some c ->
  http_send (trace w) (request_of c DELETE endpoint None None) = Responded r ->
  DataverseClient_delete self endpoint w
  = try_except (raise_for_status (api_base c +:+ "/" +:+ endpoint) r) to_client_error
      (with_event (EvHttp (request_of c DELETE endpoint None None)) w).
Proof.
  intros Hc Hs. unfold DataverseClient_delete.
  rewrite (bind_inr _ _ w w c (deref_run _ _ _ Hc)).
  unfold try_except, bind at 1. rewrite (session_request_run self c) by exact Hc.
  unfold request_of in Hs. rewrite Hs. reflexivity.
Qed.

Lemma patch_responded (self : loc) (c : DataverseClient) (endpoint : string) (data : json)
    (r : Response) (w : World) :
  heap w !! self = Some c ->
  http_send (trace w) (request_of (patching c) PATCH endpoint None (Some data))
  = Responded r ->
  DataverseClient_patch self endpoint data w
  = try_except
      (run raise_for_status (api_base c +:+ "/" +:+ endpoint) r; json_or_empty r)
      to_client_error
      (with_event (EvHttp (request_of (patching c) PATCH endpoint None (Some data)))
         (with_heap (<[self := patching c]> (heap w)) w)).
Proof.
  intros Hc Hs. unfold DataverseClient_patch.
  rewrite (bind_inr _ _ w w c (deref_run _ _ _ Hc)).
  destruct (set_session_header_run self c "Content-Type" "application/json" w Hc)
    as [E1 Hc1].
  rewrite (bind_inr _ _ _ _ tt E1).
  unfold try_except, bind at 1.
  rewrite (session_request_run self (patching c)) by exact Hc1.
  match goal with
  | |- context [http_send ?t ?q] =>
      change (http_send t q)
        with (http_send (trace w) (request_of (patching c) PATCH endpoint None (Some data)))
  end.
  rewrite Hs. reflexivity.
Qed.

Lemma post_responded (self : loc) (c : DataverseClient) (endpoint : string) (data : json)
    (r : Response) (w : World) :
  heap w !! self = Some c ->
  http_send (trace w) (request_of (posting c) POST endpoint None (Some data))
  = Responded r ->
  status_code r <> 204 ->
  DataverseClient_post self endpoint data w
  = try_except
      (run raise_for_status (api_base c +:+ "/" +:+ endpoint) r; json_or_empty r)
      to_client_error
      (with_event (EvHttp (request_of (posting c) POST endpoint None (Some data)))
         (with_heap (<[self := posting c]> (heap w)) w)).
Proof.
  intros Hc Hs Hne. unfold DataverseClient_post.
  rewrite (bind_inr _ _ w w c (deref_run _ _ _ Hc)).
  destruct (set_session_header_run self c "Content-Type" "application/json" w Hc)
    as [E1 Hc1].
  rewrite (bind_inr _ _ _ _ tt E1).
  destruct (set_session_header_run self _ "Prefer" "return=representation" _ Hc1)
    as [E2 Hc2].
  rewrite (bind_inr _ _ _ _ tt E2).
  unfold try_except, bind at 1.
  rewrite (session_request_run self (posting c)) by exact Hc2.
  match goal with
  | |- context [http_send ?t ?q] =>
      change (http_send t q)
        with (http_send (trace w) (request_of (posting c) POST endpoint None (Some data)))
  end.
  rewrite Hs. simpl heap. rewrite list_insert_insert_eq.
  replace (status_code r =? 204) with false by (symmetry; now apply Z.eqb_neq).
  reflexivity.
Qed.

(** A response outside 400..599: what the body gives. *)
Lemma settle_body (url : string) (r : Response) (w : World) :
  ~ (400 <= status_code r < 600) ->
  try_except (run raise_for_status url r; json_or_empty r) to_client_error w
  = (if Str.nonempty (text r) then
       match json_decode (text r) with
       | inr v => inr v
       | inl m => inl (ClientError ("Request failed: " +:+ m))
       end
     else inr (JDict []), w).
Proof.
  intros Hok. unfold try_except, bind. rewrite raise_for_status_pass by exact Hok.
  unfold json_or_empty, response_json.
  destruct (Str.nonempty (text r)); [|reflexivity].
  destruct (json_decode (text r)); reflexivity.
Qed.

End MethodOutcomes.

(** C1, as the claim states it, fails: a 304 response is not 2xx, and [get]
    returns the empty object for it instead of failing. *)
Lemma not_modified_is_returned :
  http_send (External := not_modified_server) (trace connected)
    (request_of token_client GET "workflows" None None)
  = Responded {| status_code := 304; reason := "Not Modified"; text := "";
                 headers := ∅ |}
  /\ ~ (200 <= 304 < 300)
  /\ fst (DataverseClient_get (X := not_modified_server) 0%nat "workflows" None connected)
     = inr (JDict []).
Proof. split; [reflexivity |]. split; [lia |]. vm_compute. reflexivity. Qed.

(** C1, amended.  For every response whose status is from 400 to 599, each of
    [get], [post], [patch] and [delete] fails with a [ClientError] whose
    message is ["HTTP <status>: <body>"]: it contains the decimal status and
    the body text as received, so a body that mentions "referenced by" is
    recognised by the check of delete_connector.  A response with any other
    status, a non-2xx one such as 304 included, is no error by its status:
    [delete] returns nothing, and [get], [patch] and [post] (unless the status
    is 204, where [post] reads the OData-EntityId header) return the empty
    object for an empty body, the decoded body when the body is JSON, and fail
    with the [ClientError] ["Request failed: <message of the decoder>"] when
    a non-empty body is not JSON. *)
Theorem error_status_becomes_client_error `{X : External} (w : World) (self : loc)
    (c : DataverseClient) (endpoint : string) (params : option (list (string * json)))
    (data : json) (r : Response) :
  heap w !! self = Some c ->
  let msg := "HTTP " +:+ pretty (status_code r) +:+ ": " +:+ text r in
  let of_body : exn + json :=
    if Str.nonempty (text r) then
      match json_decode (text r) with
      | inr v => inr v
      | inl m => inl (ClientError ("Request failed: " +:+ m))
      end
    else inr (JDict []) in
  (400 <= status_code r < 600 ->
   (http_send (trace w) (request_of c GET endpoint params None) = Responded r ->
    fst (DataverseClient_get self endpoint params w) = inl (ClientError msg))
   /\ (http_send (trace w) (request_of (posting c) POST endpoint None (Some data))
       = Responded r ->
       fst (DataverseClient_post self endpoint data w) = inl (ClientError msg))
   /\ (http_send (trace w) (request_of (patching c) PATCH endpoint None (Some data))
       = Responded r ->
       fst (DataverseClient_patch self endpoint data w) = inl (ClientError msg))
   /\ (http_send (trace w) (request_of c DELETE endpoint None None) = Responded r ->
       fst (DataverseClient_delete self endpoint w) = inl (ClientError msg))
   /\ Str.contains (pretty (status_code r)) msg = true
   /\ Str.contains (text r) msg = true
   /\ (Str.contains "referenced by" (Str.lower (text r)) = true ->
       is_dependency_error (ClientError msg) = true))
  /\ (~ (400 <= status_code r < 600) ->
      (http_send (trace w) (request_of c GET endpoint params None) = Responded r ->
       fst (DataverseClient_get self endpoint params w) = of_body)
      /\ (http_send (trace w) (request_of (posting c) POST endpoint None (Some data))
          = Responded r ->
          status_code r <> 204 ->
          fst (DataverseClient_post self endpoint data w) = of_body)
      /\ (http_send (trace w) (request_of (patching c) PATCH endpoint None (Some data))
          = Responded r ->
          fst (DataverseClient_patch self endpoint data w) = of_body)
      /\ (http_send (trace w) (request_of c DELETE endpoint None None) = Responded r ->
          fst (DataverseClient_delete self endpoint w) = inr tt)).
Proof.
  intros Hc msg of_body. split.
  - intros Hr.
    destruct (raise_for_status_error (api_base c +:+ "/" +:+ endpoint) r Hr) as [m Hm].
    assert (Hne : status_code r <> 204) by lia.
    repeat split.
    + intros Hs. rewrite (get_responded self c endpoint params r w Hc Hs).
      unfold try_except, bind. rewrite Hm. reflexivity.
    + intros Hs. rewrite (post_responded self c endpoint data r w Hc Hs Hne).
      unfold try_except, bind. rewrite Hm. reflexivity.
    + intros Hs. rewrite (patch_responded self c endpoint data r w Hc Hs).
      unfold try_except, bind. rewrite Hm. reflexivity.
    + intros Hs. rewrite (delete_responded self c endpoint r w Hc Hs).
      unfold try_except. rewrite Hm. reflexivity.
    + unfold msg. apply (contains_skip _ "HTTP "), contains_prefix.
    + unfold msg. apply (contains_skip _ "HTTP "), contains_skip, (contains_skip _ ": "),
        contains_self.
    + intros Hd. unfold is_dependency_error, msg. simpl exn_str.
      rewrite !lower_app. now do 3 apply contains_skip.
  - intros Hok. repeat split.
    + intros Hs. rewrite (get_responded self c endpoint params r w Hc Hs).
      now rewrite settle_body.
    + intros Hs Hne. rewrite (post_responded self c endpoint data r w Hc Hs Hne).
      now rewrite settle_body.
    + intros Hs. rewrite (patch_responded self c endpoint data r w Hc Hs).
      now rewrite settle_body.
    + intros Hs. rewrite (delete_responded self c endpoint r w Hc Hs).
      unfold try_except. now rewrite raise_for_status_pass.
Qed.

Lemma error_status_becomes_client_error_witness :
  fst (DataverseClient_get (X := not_found_server) 0%nat "connectors(42)" None connected)
  = inl (ClientError ("HTTP 404: " +:+ not_found_text))
  /\ fst (DataverseClient_delete (X := not_found_server) 0%nat "connectors(42)" connected)
     = inl (ClientError ("HTTP 404: " +:+ not_found_text))
  /\ fst (DataverseClient_get (X := html_server) 0%nat "workflows" None connected)
     = inl (ClientError "Request failed: Expecting value")
  /\ fst (DataverseClient_delete (X := html_server) 0%nat "workflows(1)" connected)
     = inr tt.
Proof.
  pose (not_found := {| status_code := 404; reason := "Not Found"; text := not_found_text;
                        headers := ∅ |}).
  pose (moved := {| status_code := 302; reason := "Found"; text := "<html>moved</html>";
                    headers := ∅ |}).
  assert (Herror : 400 <= status_code not_found < 600) by (simpl; lia).
  assert (Hother : ~ (400 <= status_code moved < 600)) by (simpl; lia).
  destruct (error_status_becomes_client_error (X := not_found_server) connected 0%nat
              token_client "connectors(42)" None JNull not_found eq_refl)
    as [Hfails _].
  destruct (Hfails Herror) as (Hg & _ & _ & Hd & _).
  destruct (error_status_becomes_client_error (X := html_server) connected 0%nat
              token_client "workflows" None JNull moved eq_refl)
    as [_ Hbody].
  destruct (Hbody Hother) as (Hg' & _).
  destruct (error_status_becomes_client_error (X := html_server) connected 0%nat
              token_client "workflows(1)" None JNull moved eq_refl)
    as [_ Hnothing].
  destruct (Hnothing Hother) as (_ & _ & _ & Hd').
  split; [apply Hg; reflexivity |].
  split; [apply Hd; reflexivity |].
  split; [rewrite Hg' by reflexivity; reflexivity | apply Hd'; reflexivity].
Defined.

(** ** Splitting *)

Lemma contains_char_cons (c a : ascii) (s : string) :
  Str.contains (String c "") (String a s)
  = Ascii.eqb c a || Str.contains (String c "") s.
Proof. simpl. now rewrite andb_true_r. Qed.

Lemma split_cons_sep (sep : ascii) (s : string) :
  Str.split sep (String sep s) = "" :: Str.split sep s.
Proof. simpl. now rewrite Ascii.eqb_refl. Qed.

Lemma split_not_nil (sep : ascii) (s : string) : Str.split sep s <> [].
Proof.
  destruct s as [|c s]; simpl; [discriminate |].
  destruct (Ascii.eqb c sep); [discriminate |].
  destruct (Str.split sep s); discriminate.
Qed.

(** A prefix without the separator stays in front of the first piece. *)
Lemma split_app_free (sep : ascii) (a b : string) :
  Str.contains (String sep "") a = false ->
  exists h tl, Str.split sep b = h :: tl /\ Str.split sep (a +:+ b) = (a +:+ h) :: tl.
Proof.
  induction a as [|c a IH]; intros Ha.
  - destruct (Str.split sep b) as [|h tl] eqn:Hb; [now apply split_not_nil in Hb |].
    exists h, tl. split; [reflexivity | exact Hb].
  - rewrite contains_char_cons in Ha. apply orb_false_elim in Ha as [Hc Ha].
    destruct (IH Ha) as (h & tl & Hb & Hab). exists h, tl. split; [exact Hb |].
    simpl. rewrite Ascii.eqb_sym, Hc, Hab. reflexivity.
Qed.

Lemma string_app_empty_r (s : string) : s +:+ "" = s.
Proof.
  induction s as [|c s IH]; [reflexivity |].
  change (String c (s +:+ "") = String c s). now rewrite IH.
Qed.

(** The piece in front of the first separator. *)
Lemma split_first_piece (sep : ascii) (a b : string) :
  Str.contains (String sep "") a = false ->
  Str.split sep (a +:+ String sep b) = a :: Str.split sep b.
Proof.
  intros Ha. destruct (split_app_free sep a (String sep b) Ha) as (h & tl & Hb & Hab).
  rewrite split_cons_sep in Hb. injection Hb as <- <-.
  now rewrite Hab, string_app_empty_r.
Qed.

Lemma split_free (sep : ascii) (a : string) :
  Str.contains (String sep "") a = false -> Str.split sep a = [a].
Proof.
  intros Ha. destruct (split_app_free sep a "" Ha) as (h & tl & Hb & Hab).
  simpl in Hb. injection Hb as <- <-. now rewrite !string_app_empty_r in Hab.
Qed.

(** ** Entity id of a creation response *)

Lemma nonempty_app_cons (a : string) (c : ascii) (b : string) :
  Str.nonempty (a +:+ String c b) = true.
Proof. destruct a; reflexivity. Qed.

Lemma entity_id_of_run `{X : External} (pre id rest : string) (w : World) :
  Str.contains "(" pre = false ->
  Str.contains "(" id = false ->
  Str.contains ")" id = false ->
  rest = "" \/ (exists d rest', rest = String d rest' /\ (d = "("%char \/ d = ")"%char)) ->
  entity_id_of (pre +:+ "(" +:+ id +:+ rest) w = (inr id, w).
Proof.
  intros Hpre Hid1 Hid2 Hrest. unfold entity_id_of.
  change (pre +:+ "(" +:+ id +:+ rest) with (pre +:+ String "(" (id +:+ rest)).
  rewrite (split_first_piece _ _ _ Hpre).
  destruct (split_app_free "(" id rest Hid1) as (h & tl & Hh & Hsplit).
  rewrite Hsplit. simpl lookup.
  assert (Hclose : exists tl', Str.split ")" h = "" :: tl').
  { destruct Hrest as [-> | (d & rest' & -> & [-> | ->])].
    - simpl in Hh. injection Hh as <- <-. now exists [].
    - rewrite split_cons_sep in Hh. injection Hh as <- <-. now exists [].
    - simpl in Hh. destruct (Str.split "(" rest') as [|p ps] eqn:Hp.
      + now apply split_not_nil in Hp.
      + injection Hh as <- <-. rewrite split_cons_sep. eauto. }
  destruct Hclose as [tl' Hclose].
  destruct (split_app_free ")" id h Hid2) as (h' & tl'' & Hh' & Hsplit').
  rewrite Hclose in Hh'. injection Hh' as <- <-.
  change ((pre :: (id +:+ h) :: tl) !! 1%nat) with (Some (id +:+ h)).
  cbv iota beta. rewrite Hsplit', string_app_empty_r. reflexivity.
Qed.

(** C2, as the claim states it, fails: a header whose "(" is never closed is
    malformed, and [post] returns an identifier for it, not the empty object. *)
Lemma unclosed_header_yields_an_id :
  spec_entity_id "workflows(29e2253b" = None
  /\ fst (DataverseClient_post (X := created_server "workflows(29e2253b") 0%nat
            "workflows" (JDict []) connected)
     = inr (JDict [("id", JStr "29e2253b")]).
Proof. split; [reflexivity |]. vm_compute. reflexivity. Qed.

(** C2, amended.  On a 204 response [post] looks at the OData-EntityId header:
    when it is absent, empty or without "(", the result is the empty object;
    otherwise the identifier is the text after the first "(" up to the next
    "(" or ")" or the end of the header, so a header [.../set(<guid>)] gives
    exactly [<guid>], and an unclosed header still gives an identifier. *)
Theorem post_no_content_entity_id `{X : External} (w : World) (self : loc)
    (c : DataverseClient) (endpoint : string) (data : json) (r : Response) :
  heap w !! self = Some c ->
  http_send (trace w) (request_of (posting c) POST endpoint None (Some data))
  = Responded r ->
  status_code r = 204 ->
  let entity_id_header := default "" (ci_get "OData-EntityId" (headers r)) in
  (Str.contains "(" entity_id_header = false ->
   fst (DataverseClient_post self endpoint data w) = inr (JDict []))
  /\ (forall pre id rest,
        entity_id_header = pre +:+ "(" +:+ id +:+ rest ->
        Str.contains "(" pre = false ->
        Str.contains "(" id = false ->
        Str.contains ")" id = false ->
        rest = "" \/ (exists d rest', rest = String d rest'
                                      /\ (d = "("%char \/ d = ")"%char)) ->
        fst (DataverseClient_post self endpoint data w)
        = inr (JDict [("id", JStr id)])).
Proof.
  intros Hc Hs H204 entity_id_header.
  assert (Hpost : DataverseClient_post self endpoint data w =
    try_except
      (if Str.nonempty entity_id_header && Str.contains "(" entity_id_header then
         do entity_id <- entity_id_of entity_id_header;
         ret (JDict [("id", JStr entity_id)])
       else ret (JDict []))
      to_client_error
      (with_event (EvHttp (request_of (posting c) POST endpoint None (Some data)))
         (with_heap (<[self := posting c]> (heap w)) w))).
  { unfold DataverseClient_post.
    rewrite (bind_inr _ _ w w c (deref_run _ _ _ Hc)).
    destruct (set_session_header_run self c "Content-Type" "application/json" w Hc)
      as [E1 Hc1].
    rewrite (bind_inr _ _ _ _ tt E1).
    destruct (set_session_header_run self _ "Prefer" "return=representation" _ Hc1)
      as [E2 Hc2].
    rewrite (bind_inr _ _ _ _ tt E2).
    unfold try_except, bind at 1.
    rewrite (session_request_run self (posting c)) by exact Hc2.
    match goal with
    | |- context [http_send ?t ?q] =>
        change (http_send t q)
          with (http_send (trace w) (request_of (posting c) POST endpoint None (Some data)))
    end.
    rewrite Hs. unfold bind at 1.
    rewrite raise_for_status_pass by lia.
    rewrite H204. simpl Z.eqb. cbv iota.
    simpl heap. rewrite list_insert_insert_eq. reflexivity. }
  split.
  - intros Hno. rewrite Hpost, Hno, andb_false_r. reflexivity.
  - intros pre id rest Hhdr Hpre Hid1 Hid2 Hrest. rewrite Hpost.
    assert (Hyes : Str.nonempty entity_id_header && Str.contains "(" entity_id_header = true).
    { rewrite Hhdr.
      change (pre +:+ "(" +:+ id +:+ rest) with (pre +:+ String "(" (id +:+ rest)).
      rewrite nonempty_app_cons. simpl.
      apply contains_skip. apply (contains_prefix "("). }
    rewrite Hyes. unfold try_except, bind. rewrite Hhdr.
    rewrite (entity_id_of_run pre id rest _ Hpre Hid1 Hid2 Hrest). reflexivity.
Qed.

Lemma post_no_content_entity_id_witness :
  fst (DataverseClient_post (X := created_server workflow_entity_header) 0%nat
         "workflows" (JDict [("name", JStr "My Flow")]) connected)
  = inr (JDict [("id", JStr "29e2253b-cabc-f011-bbd3-000d3a8ba54e")]).
Proof.
  destruct (post_no_content_entity_id (X := created_server workflow_entity_header)
              connected 0%nat token_client "workflows" (JDict [("name", JStr "My Flow")])
              {| status_code := 204; reason := "No Content"; text := "";
                 headers := ci_update [("OData-EntityId", workflow_entity_header)] ∅ |}
              eq_refl eq_refl eq_refl) as [_ Hid].
  apply (Hid "https://org.crm.dynamics.com/api/data/v9.2/workflows"
             "29e2253b-cabc-f011-bbd3-000d3a8ba54e" ")");
    try reflexivity.
  right. exists ")"%char, "". split; [reflexivity | now right].
Defined.

(** ** Client factory *)

Lemma missing_nil_iff (c : Config) :
  get_missing_credentials c = [] <->
  has_token_auth c = true \/ has_service_principal_auth c = true.
Proof.
  unfold get_missing_credentials, has_token_auth, has_service_principal_auth,
    py_all, py_and. simpl.
  destruct (truthy (access_token c)) eqn:Ha; rewrite ?Ha;
    destruct (truthy (dataverse_url c)), (truthy (client_id c)),
      (truthy (client_secret c)), (truthy (tenant_id c)); simpl;
    split; (tauto || discriminate || (intros [?|?]; discriminate)).
Qed.

Section Factory.

Context `{X : External}.

Lemma get_client_cached (w : World) (c : loc) :
  _client w = Some c -> get_client w = (inr c, w).
Proof. intros Hc. unfold get_client, read_client, bind. simpl. now rewrite Hc. Qed.

(** A successful call leaves the client it returns in the cache. *)
Lemma get_client_caches (w w1 : World) (c : loc) :
  get_client w = (inr c, w1) -> _client w1 = Some c.
Proof.
  intros Hg. run_get_client. simpl in Hg.
  repeat (case_match; simplify_eq; simpl in *; try done).
Qed.

(** A failed call had no cached client and leaves none; it allocates nothing. *)
Lemma get_client_failure_frame (w w1 : World) (e : exn) :
  get_client w = (inl e, w1) ->
  _client w = None /\ _client w1 = None /\ heap w1 = heap w.
Proof.
  intros Hg. run_get_client. simpl in Hg.
  crunch.
Qed.

Lemma get_config_frame (w w0 : World) (cfg : Config) :
  get_config w = (inr cfg, w0) ->
  _config w0 = Some cfg /\ _client w0 = _client w /\ heap w0 = heap w
  /\ trace w0 = trace w /\ get_config w0 = (inr cfg, w0).
Proof.
  unfold get_config. intros Hg.
  destruct (_config w) eqn:Hcfg; simplify_eq; simpl; [rewrite Hcfg|]; done.
Qed.

Lemma get_config_total (w : World) : exists cfg w0, get_config w = (inr cfg, w0).
Proof. unfold get_config. destruct (_config w); eauto. Qed.

(** Without a cached client, missing credentials end the call at once. *)
Lemma get_client_missing (w w0 : World) (cfg : Config) :
  _client w = None ->
  get_config w = (inr cfg, w0) ->
  get_missing_credentials cfg <> [] ->
  get_client w
  = (inl (ClientError (missing_credentials_message (get_missing_credentials cfg))), w0).
Proof.
  intros Hc Hcfg Hm. unfold get_client, read_client, bind at 1. rewrite Hc.
  rewrite (bind_inr _ _ _ _ _ Hcfg).
  destruct (get_missing_credentials cfg); [done | reflexivity].
Qed.

(** Without a cached client or a token, complete service-principal
    credentials make the call ask the identity provider, once. *)
Lemma get_client_asks_identity_provider (w w0 : World) (cfg : Config) :
  _client w = None ->
  get_config w = (inr cfg, w0) ->
  get_missing_credentials cfg = [] ->
  has_token_auth cfg = false ->
  trace (snd (get_client w))
  = trace w ++ [EvClientCredentials
                  ("https://login.microsoftonline.com/" +:+ str_of_opt (tenant_id cfg))
                  (client_id cfg) (client_secret cfg)
                  [str_of_opt (dataverse_url cfg) +:+ "/.default"]].
Proof.
  intros Hc Hcfg Hm Ht.
  destruct (get_config_frame _ _ _ Hcfg) as (_ & _ & _ & Htr & _).
  assert (Hsp : has_service_principal_auth cfg = true).
  { apply missing_nil_iff in Hm as [Hm | Hm]; [congruence | exact Hm]. }
  assert (Hurl : truthy (dataverse_url cfg) = true).
  { unfold has_service_principal_auth, py_all in Hsp. simpl in Hsp.
    now apply andb_prop in Hsp as [? _]. }
  unfold get_client, read_client, bind at 1. rewrite Hc.
  rewrite (bind_inr _ _ _ _ _ Hcfg). rewrite Hm, Ht, Hsp.
  unfold _get_service_principal_token, get_auth_scope. rewrite Hurl. simpl negb. cbv iota.
  rewrite <- Htr.
  unfold try_except, bind, ret, raise, get_trace, emit, lift_sum, token_of_result,
    DataverseClient_init, alloc, set_client, str_of_opt.
  crunch.
Qed.

(** Whatever the outcome, an uncached call leaves the configuration cached. *)
Lemma get_client_keeps_config (w w0 : World) (cfg : Config) :
  _client w = None ->
  get_config w = (inr cfg, w0) ->
  _config (snd (get_client w)) = Some cfg.
Proof.
  intros Hc Hcfg.
  destruct (get_config_frame _ _ _ Hcfg) as (Hcfg0 & _).
  unfold get_client, read_client, bind at 1. rewrite Hc.
  rewrite (bind_inr _ _ _ _ _ Hcfg).
  unfold try_except, bind, ret, raise, get_trace, emit, lift_sum, token_of_result,
    DataverseClient_init, alloc, set_client, _get_service_principal_token,
    _get_user_token.
  crunch.
Qed.

(** With a token and a URL the call succeeds without asking anyone: the
    token is used as it is. *)
Lemma get_client_token (w w0 : World) (cfg : Config) :
  _client w = None ->
  get_config w = (inr cfg, w0) ->
  has_token_auth cfg = true ->
  exists c w1, get_client w = (inr c, w1) /\ trace w1 = trace w
               /\ (client_token <$> heap w1 !! c) = Some (access_token cfg).
Proof.
  intros Hc Hcfg Ht.
  destruct (get_config_frame _ _ _ Hcfg) as (_ & _ & _ & Htr & _).
  assert (Hm : get_missing_credentials cfg = []) by (apply missing_nil_iff; now left).
  assert (Hurl : exists u, dataverse_url cfg = Some u).
  { unfold has_token_auth, py_and in Ht.
    destruct (truthy (access_token cfg)) eqn:Ha; [|congruence].
    destruct (dataverse_url cfg); [eauto | discriminate]. }
  destruct Hurl as [u Hu].
  unfold get_client, read_client, bind at 1. rewrite Hc.
  rewrite (bind_inr _ _ _ _ _ Hcfg). rewrite Hm, Ht.
  unfold DataverseClient_init. rewrite Hu.
  unfold bind, alloc, set_client, ret. simpl.
  eexists _, _. split; [reflexivity |]. simpl. split; [exact Htr |].
  rewrite lookup_app_r by lia. rewrite Nat.sub_diag. reflexivity.
Qed.

End Factory.


(** [reset_client] empties the cache and touches nothing else. *)
Lemma reset_client_clears `{X : External} (w : World) :
  _client (snd (reset_client w)) = None
  /\ heap (snd (reset_client w)) = heap w /\ trace (snd (reset_client w)) = trace w.
Proof. repeat split. Qed.

(** C3.  The claim's third branch is not what the code does: with complete
    user credentials but neither a token nor a client secret, [get_client]
    stops at the missing-credentials check and never starts the
    username/password flow. *)
Theorem user_credentials_alone_are_rejected `{X : External} (w w0 : World) (cfg : Config) :
  _client w = None ->
  get_config w = (inr cfg, w0) ->
  has_user_auth cfg = true ->
  has_token_auth cfg = false ->
  has_service_principal_auth cfg = false ->
  get_missing_credentials cfg <> []
  /\ get_client w
     = (inl (ClientError (missing_credentials_message (get_missing_credentials cfg))), w0)
  /\ trace w0 = trace w.
Proof.
  intros Hc Hcfg _ Ht Hsp.
  assert (Hm : get_missing_credentials cfg <> []).
  { intros Hm. apply missing_nil_iff in Hm as [Hm | Hm]; congruence. }
  split; [exact Hm |]. split; [now apply get_client_missing |].
  now destruct (get_config_frame _ _ _ Hcfg) as (_ & _ & _ & Htr & _).
Qed.

Lemma user_credentials_alone_are_rejected_witness :
  get_missing_credentials (Config_init user_env) = ["DATAVERSE_CLIENT_SECRET"]
  /\ fst (get_client (X := user_process) fresh)
     = inl (ClientError (missing_credentials_message ["DATAVERSE_CLIENT_SECRET"]))
  /\ trace (snd (get_client (X := user_process) fresh)) = [].
Proof.
  destruct (user_credentials_alone_are_rejected (X := user_process) fresh
              (snd (get_config (X := user_process) fresh)) (Config_init user_env)
              eq_refl eq_refl eq_refl eq_refl eq_refl) as (_ & Hg & Htr).
  split; [reflexivity |]. rewrite Hg. split; [reflexivity | exact Htr].
Defined.



(** C9.  A failed [get_client] had an empty cache and leaves it empty, with no
    client object allocated; the next call therefore goes through the
    credential check again and, when the credentials are complete, asks the
    identity provider again. *)
Theorem failed_get_client_leaves_cache_empty `{X : External} (w w1 : World) (e : exn) :
  get_client w = (inl e, w1) ->
  _client w = None /\ _client w1 = None /\ heap w1 = heap w
  /\ exists cfg, _config w1 = Some cfg
       /\ ((get_missing_credentials cfg <> []
            /\ get_client w1
               = (inl (ClientError
                         (missing_credentials_message (get_missing_credentials cfg))), w1))
           \/ (get_missing_credentials cfg = []
               /\ exists authority cid secret scopes,
                    trace (snd (get_client w1))
                    = trace w1 ++ [EvClientCredentials authority cid secret scopes])).
Proof.
  intros Hg.
  destruct (get_client_failure_frame _ _ _ Hg) as (Hc & Hc1 & Hh).
  repeat (split; [assumption |]).
  destruct (get_config_total w) as (cfg & w0 & Hcfg).
  pose proof (get_client_keeps_config _ _ _ Hc Hcfg) as Hk. rewrite Hg in Hk. simpl in Hk.
  exists cfg. split; [exact Hk |].
  assert (Hcfg1 : get_config w1 = (inr cfg, w1)).
  { unfold get_config. now rewrite Hk. }
  destruct (get_missing_credentials cfg) as [|m ms] eqn:Hm.
  - right. split; [reflexivity |].
    assert (Ht : has_token_auth cfg = false).
    { destruct (has_token_auth cfg) eqn:Ht; [|reflexivity].
      destruct (get_client_token _ _ _ Hc Hcfg Ht) as (c & w' & Hok & _). congruence. }
    eexists _, _, _, _. now apply (get_client_asks_identity_provider w1 w1 cfg).
  - left. split; [discriminate |]. rewrite <- Hm.
    apply get_client_missing; [assumption | assumption | rewrite Hm; discriminate].
Qed.

Lemma failed_get_client_leaves_cache_empty_witness :
  _client (snd (get_client (X := refused_process) fresh)) = None
  /\ heap (snd (get_client (X := refused_process) fresh)) = [].
Proof.
  destruct (failed_get_client_leaves_cache_empty (X := refused_process) fresh
              (snd (get_client (X := refused_process) fresh))
              (ClientError ("Failed to authenticate with service principal: "
                            +:+ "Failed to acquire token: "
                            +:+ "AADSTS7000215: Invalid client secret"))
              eq_refl) as (_ & Hc & Hh & _).
  split; assumption.
Defined.

(** ** Session headers *)

Lemma ci_get_set_same (k v : string) (h : CaseInsensitiveDict) :
  ci_get k (ci_set k v h) = Some v.
Proof. unfold ci_get, ci_set. now rewrite lookup_insert_eq. Qed.

Lemma ci_get_set_other (k k' v : string) (h : CaseInsensitiveDict) :
  Str.lower k' <> Str.lower k -> ci_get k (ci_set k' v h) = ci_get k h.
Proof. intros Hne. unfold ci_get, ci_set. now rewrite lookup_insert_ne. Qed.

Lemma content_type_after (op : Op) (c : DataverseClient) :
  ci_get "Content-Type" (session_headers (client_after op c))
  = if is_write op then Some "application/json"
    else ci_get "Content-Type" (session_headers c).
Proof.
  destruct op; simpl; try reflexivity.
  - rewrite ci_get_set_other by (vm_compute; discriminate). apply ci_get_set_same.
  - apply ci_get_set_same.
Qed.

Lemma prefer_after (op : Op) (c : DataverseClient) :
  ci_get "Prefer" (session_headers (client_after op c))
  = if is_post op then Some "return=representation"
    else ci_get "Prefer" (session_headers c).
Proof.
  destruct op; simpl; try reflexivity.
  - apply ci_get_set_same.
  - apply ci_get_set_other. vm_compute. discriminate.
Qed.

Section Sequences.

Context `{X : External}.

Lemma run_op_client (self : loc) (op : Op) (c : DataverseClient) (w : World) :
  heap w !! self = Some c ->
  heap (run_op self op w) !! self = Some (client_after op c).
Proof.
  intros Hc. pose proof (lookup_lt_Some _ _ _ Hc) as Hlt.
  destruct op; simpl.
  - now rewrite (get_world self c).
  - rewrite (post_world self c) by exact Hc. simpl. now apply list_lookup_insert_eq.
  - rewrite (patch_world self c) by exact Hc. simpl. now apply list_lookup_insert_eq.
  - now rewrite (delete_world self c).
Qed.

(** After any sequence of operations the session has the Content-Type
    header exactly when a post or patch was among them, and the Prefer
    header exactly when a post was. *)
Lemma run_ops_client (self : loc) (ops : list Op) (c : DataverseClient) (w : World) :
  heap w !! self = Some c ->
  exists c', heap (run_ops self ops w) !! self = Some c'
    /\ ci_get "Content-Type" (session_headers c')
       = (if existsb is_write ops then Some "application/json"
          else ci_get "Content-Type" (session_headers c))
    /\ ci_get "Prefer" (session_headers c')
       = (if existsb is_post ops then Some "return=representation"
          else ci_get "Prefer" (session_headers c)).
Proof.
  revert c w. induction ops as [|op ops IH]; intros c w Hc.
  - exists c. simpl. auto.
  - destruct (IH _ _ (run_op_client self op c w Hc)) as (c' & Hc' & Hct & Hpr).
    exists c'. split; [exact Hc' |]. simpl existsb.
    rewrite Hct, Hpr, content_type_after, prefer_after.
    split; [destruct (is_write op), (existsb is_write ops)
           | destruct (is_post op), (existsb is_post ops)]; reflexivity.
Qed.

End Sequences.

(** C8, as the claim states it, fails: [post] sets Content-Type and Prefer on
    the session, so the GET request that follows a POST carries both. *)
Lemma get_after_post_carries_write_headers :
  exists req,
    last (trace (snd (DataverseClient_get (X := created_server workflow_entity_header)
                        0%nat "workflows" None
                        (run_ops (X := created_server workflow_entity_header) 0%nat
                           [OpPost "workflows" (JDict [("name", JStr "My Flow")])]
                           connected))))
    = Some (EvHttp req)
    /\ req_method req = GET
    /\ ci_get "Content-Type" (req_headers req) = Some "application/json"
    /\ ci_get "Prefer" (req_headers req) = Some "return=representation".
Proof. eexists. split; [vm_compute; reflexivity |]. vm_compute. auto. Qed.

(** C8, amended.  A new client's session has the four fixed headers
    (Authorization bearer, Accept, OData-MaxVersion, OData-Version) on top of
    the HTTP library's own defaults, and neither Content-Type nor Prefer.
    [post] and [patch] set Content-Type, and [post] sets Prefer, on the
    session itself: after any sequence of operations on the client, a GET
    request carries Content-Type exactly when a post or patch came before it
    and Prefer exactly when a post came before it. *)
Theorem write_headers_stay_on_the_session `{X : External} (w0 w : World) (url : string)
    (token : option string) (self : loc) :
  DataverseClient_init (Some url) token w0 = (inr self, w) ->
  exists c,
    heap w !! self = Some c
    /\ ci_get "Authorization" (session_headers c) = Some ("Bearer " +:+ str_of_opt token)
    /\ ci_get "Accept" (session_headers c) = Some "application/json"
    /\ ci_get "OData-MaxVersion" (session_headers c) = Some "4.0"
    /\ ci_get "OData-Version" (session_headers c) = Some "4.0"
    /\ (forall k, Str.lower k <> "authorization" -> Str.lower k <> "accept" ->
                  Str.lower k <> "odata-maxversion" -> Str.lower k <> "odata-version" ->
                  ci_get k (session_headers c) = ci_get k default_headers)
    /\ ci_get "Content-Type" (session_headers c) = None
    /\ ci_get "Prefer" (session_headers c) = None
    /\ forall ops endpoint params,
         let w' := run_ops self ops w in
         exists req,
           trace (snd (DataverseClient_get self endpoint params w')) = trace w' ++ [EvHttp req]
           /\ req_method req = GET
           /\ ci_get "Content-Type" (req_headers req)
              = (if existsb is_write ops then Some "application/json" else None)
           /\ ci_get "Prefer" (req_headers req)
              = (if existsb is_post ops then Some "return=representation" else None).
Proof.
  intros Hinit. unfold DataverseClient_init, alloc in Hinit. simplify_eq.
  eexists. split.
  { simpl. rewrite lookup_app_r by lia. rewrite Nat.sub_diag. reflexivity. }
  simpl session_headers. unfold ci_update, client_default_headers. simpl fold_left.
  assert (Hother : forall k, Str.lower k <> "authorization" -> Str.lower k <> "accept" ->
            Str.lower k <> "odata-maxversion" -> Str.lower k <> "odata-version" ->
            ci_get k (ci_set "OData-Version" "4.0"
                        (ci_set "OData-MaxVersion" "4.0"
                           (ci_set "Accept" "application/json"
                              (ci_set "Authorization" ("Bearer " +:+ str_of_opt token)
                                 default_headers))))
            = ci_get k default_headers).
  { intros k H1 H2 H3 H4.
    rewrite ci_get_set_other
      by (change (Str.lower "OData-Version") with "odata-version"; congruence).
    rewrite ci_get_set_other
      by (change (Str.lower "OData-MaxVersion") with "odata-maxversion"; congruence).
    rewrite ci_get_set_other
      by (change (Str.lower "Accept") with "accept"; congruence).
    apply ci_get_set_other.
    change (Str.lower "Authorization") with "authorization". congruence. }
  assert (Hct : ci_get "Content-Type" default_headers = None) by reflexivity.
  assert (Hpr : ci_get "Prefer" default_headers = None) by reflexivity.
  split. { rewrite !ci_get_set_other by (vm_compute; discriminate). apply ci_get_set_same. }
  split. { rewrite !ci_get_set_other by (vm_compute; discriminate). apply ci_get_set_same. }
  split. { rewrite !ci_get_set_other by (vm_compute; discriminate). apply ci_get_set_same. }
  split. { apply ci_get_set_same. }
  split. { exact Hother. }
  split. { rewrite Hother by (vm_compute; discriminate). exact Hct. }
  split. { rewrite Hother by (vm_compute; discriminate). exact Hpr. }
  intros ops endpoint params.
  match goal with
  | |- context [run_ops _ ops ?w1] =>
      assert (Hc : heap w1 !! length (heap w0) = Some
        {| client_url := Str.rstrip "/" url; client_token := token;
           api_base := Str.rstrip "/" url +:+ "/api/data/v9.2";
           session_headers :=
             ci_set "OData-Version" "4.0"
               (ci_set "OData-MaxVersion" "4.0"
                  (ci_set "Accept" "application/json"
                     (ci_set "Authorization" ("Bearer " +:+ str_of_opt token)
                        default_headers))) |})
        by (simpl; rewrite lookup_app_r by lia; rewrite Nat.sub_diag; reflexivity);
      destruct (run_ops_client (length (heap w0)) ops _ w1 Hc) as (c' & Hc' & Hct' & Hpr')
  end.
  simpl session_headers in Hct', Hpr'.
  rewrite Hother in Hct', Hpr' by (vm_compute; discriminate).
  rewrite Hct in Hct'. rewrite Hpr in Hpr'.
  exists (request_of c' GET endpoint params None).
  rewrite (get_world _ c') by exact Hc'. simpl. auto.
Qed.

Lemma write_headers_stay_on_the_session_witness :
  exists req,
    trace (snd (DataverseClient_get (X := created_server workflow_entity_header)
                  0%nat "workflows" None
                  (run_ops (X := created_server workflow_entity_header) 0%nat
                     [OpGet "solutions" None; OpPatch "workflows(1)" (JDict [])]
                     connected)))
    = trace (run_ops (X := created_server workflow_entity_header) 0%nat
               [OpGet "solutions" None; OpPatch "workflows(1)" (JDict [])] connected)
      ++ [EvHttp req]
    /\ ci_get "Content-Type" (req_headers req) = Some "application/json"
    /\ ci_get "Prefer" (req_headers req) = None.
Proof.
  destruct (write_headers_stay_on_the_session (X := created_server workflow_entity_header)
              {| _config := Some (Config_init token_env); _client := Some 0%nat;
                 heap := []; trace := [] |}
              connected "https://org.crm.dynamics.com/" (Some "eyJ0eXAi") 0%nat eq_refl)
    as (c & _ & _ & _ & _ & _ & _ & _ & _ & Hops).
  destruct (Hops [OpGet "solutions" None; OpPatch "workflows(1)" (JDict [])]
              "workflows" None) as (req & Htr & _ & Hct & Hpr).
  exists req. auto.
Defined.

(** ** Listings *)

Section Listings.

Context `{X : External}.

Lemma set_states_records (fl : list json) (w : World) :
  Forall (fun f => is_dict f = true) fl ->
  exists rows, set_states fl w = (inr rows, w)
               /\ Forall2 (fun f row => exists d, f = JDict d /\ row = with_state d) fl rows.
Proof.
  induction 1 as [|f fl Hf _ IH].
  - exists []. split; [reflexivity | constructor].
  - destruct f as [| | | | |d]; try discriminate.
    destruct IH as (rows & Hrows & Hall).
    exists (with_state d :: rows). split.
    + simpl. unfold bind, ret. simpl. rewrite Hrows. reflexivity.
    + constructor; [eauto | exact Hall].
Qed.

Lemma show_flows_nil (table_format : bool) (w : World) :
  show_flows table_format (JList []) w
  = (inr tt, with_event (if table_format
                         then EvPrintTable (JList []) flow_table_columns
                         else EvPrintJson (JList [])) w).
Proof. destruct table_format; reflexivity. Qed.

End Listings.

(** C7.  In the solution-scoped listing, when the component query comes back
    with an empty (falsy) component set, or no component carries an object
    id, the flow list is the empty list, the only request of the join is the
    one to [solutioncomponents] (none goes to [workflows]), and the command
    prints the empty list. *)
Theorem empty_components_short_circuit `{X : External} (w w1 : World) (client : loc)
    (c : DataverseClient) (solution_id component_result : json) :
  heap w !! client = Some c ->
  DataverseClient_get client "solutioncomponents" (Some (component_params solution_id)) w
  = (inr component_result, w1) ->
  (py_truthy (format_response component_result) = false
   \/ exists items, py_iter (format_response component_result) w1 = (inr items, w1)
                    /\ object_ids items w1 = (inr [], w1)) ->
  solution_workflows client solution_id w = (inr (JList []), w1)
  /\ trace w1
     = trace w ++ [EvHttp (request_of c GET "solutioncomponents"
                             (Some (component_params solution_id)) None)]
  /\ forall w0 w0' solution name table_format,
       get_client w0 = (inr client, w0') ->
       resolve_solution_id client solution name w0' = (inr solution_id, w) ->
       list_solution_flows solution name table_format w0
       = (inr tt, with_event (if table_format
                              then EvPrintTable (JList []) flow_table_columns
                              else EvPrintJson (JList [])) w1).
Proof.
  intros Hc Hget Hempty.
  assert (Hflows : solution_workflows client solution_id w = (inr (JList []), w1)).
  { unfold solution_workflows. rewrite (bind_inr _ _ _ _ _ Hget).
    destruct Hempty as [Hfalse | (items & Hiter & Hids)].
    - now rewrite Hfalse.
    - destruct (py_truthy (format_response component_result)); [|reflexivity].
      cbn [negb].
      rewrite (bind_inr _ _ _ _ _ Hiter), (bind_inr _ _ _ _ _ Hids). reflexivity. }
  split; [exact Hflows |]. split.
  - pose proof (get_world client c "solutioncomponents"
                  (Some (component_params solution_id)) w Hc) as Hw.
    rewrite Hget in Hw. simpl in Hw. now subst w1.
  - intros w0 w0' solution name table_format Hclient Hresolve.
    unfold list_solution_flows, command.
    erewrite try_except_inr; [reflexivity |].
    rewrite (bind_inr _ _ _ _ _ Hclient), (bind_inr _ _ _ _ _ Hresolve),
      (bind_inr _ _ _ _ _ Hflows).
    apply show_flows_nil.
Qed.

Lemma empty_components_short_circuit_witness :
  list_solution_flows (X := empty_server) (Some "7d1a") None true connected
  = (inr tt,
     {| _config := Some (Config_init token_env); _client := Some 0%nat;
        heap := [token_client];
        trace := [EvHttp (request_of token_client GET "solutioncomponents"
                            (Some (component_params (X := empty_server) (JStr "7d1a"))) None);
                  EvPrintTable (JList []) flow_table_columns] |}).
Proof.
  destruct (empty_components_short_circuit (X := empty_server) connected
              (snd (DataverseClient_get (X := empty_server) 0%nat "solutioncomponents"
                      (Some (component_params (X := empty_server) (JStr "7d1a"))) connected))
              0%nat token_client (JStr "7d1a") (JDict [("value", JList [])])
              eq_refl eq_refl (or_introl eq_refl)) as (_ & _ & Hcmd).
  rewrite (Hcmd connected connected (Some "7d1a") None true eq_refl eq_refl).
  reflexivity.
Defined.

(** C10.  In the flow listing with a solution name, when the flows fetched
    are a list and the name lookup comes back empty (falsy), the command goes
    on to show the whole fetched list: as JSON it prints exactly that list;
    as a table it prints one row per fetched flow (each being a record). *)
Theorem unresolved_solution_shows_all_flows `{X : External} (w0 w1 w2 w3 : World)
    (client : loc) (solution state : option string) (fl : list json)
    (solution_result : json) :
  get_client w0 = (inr client, w1) ->
  fetch_flows client state w1 = (inr (JList fl), w2) ->
  truthy solution = true ->
  DataverseClient_get client "solutions" (Some (solution_lookup_params solution)) w2
  = (inr solution_result, w3) ->
  py_truthy (format_response solution_result) = false ->
  (forall table_format,
     list_flows solution state table_format w0
     = command (show_flows table_format (JList fl)) w3)
  /\ list_flows solution state false w0 = (inr tt, with_event (EvPrintJson (JList fl)) w3)
  /\ (Forall (fun f => is_dict f = true) fl ->
      exists rows,
        Forall2 (fun f row => exists d, f = JDict d /\ row = with_state d) fl rows
        /\ list_flows solution state true w0
           = (inr tt, with_event (EvPrintTable (JList rows) flow_table_columns) w3)).
Proof.
  intros Hclient Hfetch Hsol Hlookup Hnone.
  assert (Hfilter : filter_by_solution client solution (JList fl) w2 = (inr (JList fl), w3)).
  { unfold filter_by_solution. rewrite Hsol. cbn [andb is_list].
    rewrite (bind_inr _ _ _ _ _ Hlookup). now rewrite Hnone. }
  assert (Hall : forall table_format,
            list_flows solution state table_format w0
            = command (show_flows table_format (JList fl)) w3).
  { intros table_format. unfold list_flows, command, try_except.
    rewrite (bind_inr _ _ _ _ _ Hclient), (bind_inr _ _ _ _ _ Hfetch),
      (bind_inr _ _ _ _ _ Hfilter). reflexivity. }
  split; [exact Hall |]. split.
  - rewrite Hall. reflexivity.
  - intros Hrecords. destruct (set_states_records fl w3 Hrecords) as (rows & Hrows & Hrel).
    exists rows. split; [exact Hrel |]. rewrite Hall.
    unfold command, show_flows. cbn [andb is_list].
    erewrite try_except_inr; [reflexivity |].
    unfold py_iter. unfold bind at 1. unfold ret at 1.
    rewrite (bind_inr _ _ _ _ _ Hrows). reflexivity.
Qed.

Lemma unresolved_solution_shows_all_flows_witness :
  fst (list_flows (X := one_flow_server) (Some "No Such Solution") None false connected)
  = inr tt
  /\ last (trace (snd (list_flows (X := one_flow_server) (Some "No Such Solution") None
                         false connected)))
     = Some (EvPrintJson (JList [JDict []])).
Proof.
  destruct (unresolved_solution_shows_all_flows (X := one_flow_server) connected connected
              (snd (fetch_flows (X := one_flow_server) 0%nat None connected))
              (snd (DataverseClient_get (X := one_flow_server) 0%nat "solutions"
                      (Some (solution_lookup_params (Some "No Such Solution")))
                      (snd (fetch_flows (X := one_flow_server) 0%nat None connected))))
              0%nat (Some "No Such Solution") None [JDict []]
              (JDict [("value", JList [])])
              eq_refl eq_refl eq_refl eq_refl eq_refl) as (_ & Hjson & _).
  rewrite Hjson. split; reflexivity.
Defined.

(** * Further properties *)

Section Transport.

Context `{X : External}.

Lemma get_transport (self : loc) (c : DataverseClient) (endpoint : string)
    (params : option (list (string * json))) (msg : string) (w : World) :
  heap w !! self = Some c ->
  http_send (trace w) (request_of c GET endpoint params None) = TransportFailure msg ->
  fst (DataverseClient_get self endpoint params w)
  = inl (ClientError ("Request failed: " +:+ msg)).
Proof.
  intros Hc Hs. unfold DataverseClient_get.
  rewrite (bind_inr _ _ w w c (deref_run _ _ _ Hc)).
  unfold try_except, bind at 1. rewrite (session_request_run self c) by exact Hc.
  unfold request_of in Hs. rewrite Hs. reflexivity.
Qed.

Lemma delete_transport (self : loc) (c : DataverseClient) (endpoint msg : string)
    (w : World) :
  heap w !! self = Some c ->
  http_send (trace w) (request_of c DELETE endpoint None None) = TransportFailure msg ->
  fst (DataverseClient_delete self endpoint w)
  = inl (ClientError ("Request failed: " +:+ msg)).
Proof.
  intros Hc Hs. unfold DataverseClient_delete.
  rewrite (bind_inr _ _ w w c (deref_run _ _ _ Hc)).
  unfold try_except, bind at 1. rewrite (session_request_run self c) by exact Hc.
  unfold request_of in Hs. rewrite Hs. reflexivity.
Qed.

Lemma patch_transport (self : loc) (c : DataverseClient) (endpoint : string) (data : json)
    (msg : string) (w : World) :
  heap w !! self = Some c ->
  http_send (trace w) (request_of (patching c) PATCH endpoint None (Some data))
  = TransportFailure msg ->
  fst (DataverseClient_patch self endpoint data w)
  = inl (ClientError ("Request failed: " +:+ msg)).
Proof.
  intros Hc Hs. unfold DataverseClient_patch.
  rewrite (bind_inr _ _ w w c (deref_run _ _ _ Hc)).
  destruct (set_session_header_run self c "Content-Type" "application/json" w Hc)
    as [E1 Hc1].
  rewrite (bind_inr _ _ _ _ tt E1).
  unfold try_except, bind at 1.
  rewrite (session_request_run self (patching c)) by exact Hc1.
  match goal with
  | |- context [http_send ?t ?q] =>
      change (http_send t q)
        with (http_send (trace w) (request_of (patching c) PATCH endpoint None (Some data)))
  end.
  rewrite Hs. reflexivity.
Qed.

Lemma post_transport (self : loc) (c : DataverseClient) (endpoint : string) (data : json)
    (msg : string) (w : World) :
  heap w !! self = Some c ->
  http_send (trace w) (request_of (posting c) POST endpoint None (Some data))
  = TransportFailure msg ->
  fst (DataverseClient_post self endpoint data w)
  = inl (ClientError ("Request failed: " +:+ msg)).
Proof.
  intros Hc Hs. unfold DataverseClient_post.
  rewrite (bind_inr _ _ w w c (deref_run _ _ _ Hc)).
  destruct (set_session_header_run self c "Content-Type" "application/json" w Hc)
    as [E1 Hc1].
  rewrite (bind_inr _ _ _ _ tt E1).
  destruct (set_session_header_run self _ "Prefer" "return=representation" _ Hc1)
    as [E2 Hc2].
  rewrite (bind_inr _ _ _ _ tt E2).
  unfold try_except, bind at 1.
  rewrite (session_request_run self (posting c)) by exact Hc2.
  match goal with
  | |- context [http_send ?t ?q] =>
      change (http_send t q)
        with (http_send (trace w) (request_of (posting c) POST endpoint None (Some data)))
  end.
  rewrite Hs. reflexivity.
Qed.

End Transport.

(** X1.  A request that fails below HTTP (no response at all) makes each of
    [get], [post], [patch] and [delete] fail with a [ClientError] whose
    message is ["Request failed: "] followed by the transport error's text. *)
Theorem transport_failure_becomes_client_error `{X : External} (w : World) (self : loc)
    (c : DataverseClient) (endpoint : string) (params : option (list (string * json)))
    (data : json) (msg : string) :
  heap w !! self = Some c ->
  (http_send (trace w) (request_of c GET endpoint params None) = TransportFailure msg ->
   fst (DataverseClient_get self endpoint params w)
   = inl (ClientError ("Request failed: " +:+ msg)))
  /\ (http_send (trace w) (request_of (posting c) POST endpoint None (Some data))
      = TransportFailure msg ->
      fst (DataverseClient_post self endpoint data w)
      = inl (ClientError ("Request failed: " +:+ msg)))
  /\ (http_send (trace w) (request_of (patching c) PATCH endpoint None (Some data))
      = TransportFailure msg ->
      fst (DataverseClient_patch self endpoint data w)
      = inl (ClientError ("Request failed: " +:+ msg)))
  /\ (http_send (trace w) (request_of c DELETE endpoint None None) = TransportFailure msg ->
      fst (DataverseClient_delete self endpoint w)
      = inl (ClientError ("Request failed: " +:+ msg))).
Proof.
  intros Hc. repeat split; intros Hs.
  - now apply get_transport with c.
  - now apply post_transport with c.
  - now apply patch_transport with c.
  - now apply delete_transport with c.
Qed.

Lemma transport_failure_becomes_client_error_witness :
  fst (DataverseClient_get (X := unreachable_server) 0%nat "workflows" None connected)
  = inl (ClientError "Request failed: Connection refused")
  /\ fst (DataverseClient_post (X := unreachable_server) 0%nat "workflows" (JDict [])
            connected)
     = inl (ClientError "Request failed: Connection refused").
Proof.
  destruct (transport_failure_becomes_client_error (X := unreachable_server) connected
              0%nat token_client "workflows" None (JDict []) "Connection refused" eq_refl)
    as (Hg & Hp & _).
  split; [apply Hg | apply Hp]; reflexivity.
Defined.

(** X2.  A response that is not an error (status outside 400..599) gives, from
    [get], [patch] and a [post] not answered with 204, the empty object when
    the body is empty, the decoded body when the body is JSON, and the
    [ClientError] ["Request failed: <message of the decoder>"] when a
    non-empty body is not JSON; [delete] returns nothing whatever the body
    is, JSON or not. *)
Theorem success_body_is_decoded_or_empty `{X : External} (w : World) (self : loc)
    (c : DataverseClient) (endpoint : string) (params : option (list (string * json)))
    (data : json) (r : Response) :
  heap w !! self = Some c ->
  ~ (400 <= status_code r < 600) ->
  (http_send (trace w) (request_of c DELETE endpoint None None) = Responded r ->
   fst (DataverseClient_delete self endpoint w) = inr tt)
  /\ (text r = "" ->
      (http_send (trace w) (request_of c GET endpoint params None) = Responded r ->
       fst (DataverseClient_get self endpoint params w) = inr (JDict []))
      /\ (http_send (trace w) (request_of (patching c) PATCH endpoint None (Some data))
          = Responded r ->
          fst (DataverseClient_patch self endpoint data w) = inr (JDict []))
      /\ (http_send (trace w) (request_of (posting c) POST endpoint None (Some data))
          = Responded r ->
          status_code r <> 204 ->
          fst (DataverseClient_post self endpoint data w) = inr (JDict [])))
  /\ (forall v, text r <> "" -> json_decode (text r) = inr v ->
      (http_send (trace w) (request_of c GET endpoint params None) = Responded r ->
       fst (DataverseClient_get self endpoint params w) = inr v)
      /\ (http_send (trace w) (request_of (patching c) PATCH endpoint None (Some data))
          = Responded r ->
          fst (DataverseClient_patch self endpoint data w) = inr v)
      /\ (http_send (trace w) (request_of (posting c) POST endpoint None (Some data))
          = Responded r ->
          status_code r <> 204 ->
          fst (DataverseClient_post self endpoint data w) = inr v))
  /\ (forall m, text r <> "" -> json_decode (text r) = inl m ->
      (http_send (trace w) (request_of c GET endpoint params None) = Responded r ->
       fst (DataverseClient_get self endpoint params w)
       = inl (ClientError ("Request failed: " +:+ m)))
      /\ (http_send (trace w) (request_of (patching c) PATCH endpoint None (Some data))
          = Responded r ->
          fst (DataverseClient_patch self endpoint data w)
          = inl (ClientError ("Request failed: " +:+ m)))
      /\ (http_send (trace w) (request_of (posting c) POST endpoint None (Some data))
          = Responded r ->
          status_code r <> 204 ->
          fst (DataverseClient_post self endpoint data w)
          = inl (ClientError ("Request failed: " +:+ m)))).
Proof.
  intros Hc Hok.
  assert (Hall : forall out : exn + json,
             (if Str.nonempty (text r) then
                match json_decode (text r) with
                | inr v => inr v
                | inl m => inl (ClientError ("Request failed: " +:+ m))
                end
              else inr (JDict [])) = out ->
             (http_send (trace w) (request_of c GET endpoint params None) = Responded r ->
              fst (DataverseClient_get self endpoint params w) = out)
             /\ (http_send (trace w) (request_of (patching c) PATCH endpoint None (Some data))
                 = Responded r ->
                 fst (DataverseClient_patch self endpoint data w) = out)
             /\ (http_send (trace w) (request_of (posting c) POST endpoint None (Some data))
                 = Responded r ->
                 status_code r <> 204 ->
                 fst (DataverseClient_post self endpoint data w) = out)).
  { intros out <-. repeat split.
    - intros Hs. rewrite (get_responded self c endpoint params r w Hc Hs).
      now rewrite settle_body.
    - intros Hs. rewrite (patch_responded self c endpoint data r w Hc Hs).
      now rewrite settle_body.
    - intros Hs Hne. rewrite (post_responded self c endpoint data r w Hc Hs Hne).
      now rewrite settle_body. }
  split; [|split; [|split]].
  - intros Hs. rewrite (delete_responded self c endpoint r w Hc Hs).
    unfold try_except. now rewrite raise_for_status_pass.
  - intros Ht. apply Hall. now rewrite Ht.
  - intros v Ht Hd. apply Hall. destruct (text r); [done |]. simpl. now rewrite Hd.
  - intros m Ht Hd. apply Hall. destruct (text r); [done |]. simpl. now rewrite Hd.
Qed.

Lemma success_body_is_decoded_or_empty_witness :
  fst (DataverseClient_get (X := empty_list_server) 0%nat "workflows" None connected)
  = inr (JList [])
  /\ fst (DataverseClient_get (X := html_server) 0%nat "workflows" None connected)
     = inl (ClientError "Request failed: Expecting value")
  /\ fst (DataverseClient_delete (X := html_server) 0%nat "workflows(1)" connected)
     = inr tt.
Proof.
  pose (listed := {| status_code := 200; reason := "OK"; text := "[]"; headers := ∅ |}).
  pose (moved := {| status_code := 302; reason := "Found"; text := "<html>moved</html>";
                    headers := ∅ |}).
  assert (Hlisted : ~ (400 <= status_code listed < 600)) by (simpl; lia).
  assert (Hmoved : ~ (400 <= status_code moved < 600)) by (simpl; lia).
  assert (Htext : text listed <> "") by discriminate.
  assert (Htext' : text moved <> "") by discriminate.
  destruct (success_body_is_decoded_or_empty (X := empty_list_server) connected 0%nat
              token_client "workflows" None (JDict []) listed eq_refl Hlisted)
    as (_ & _ & Hjson & _).
  destruct (Hjson (JList []) Htext eq_refl) as (Hg & _).
  destruct (success_body_is_decoded_or_empty (X := html_server) connected 0%nat
              token_client "workflows" None (JDict []) moved eq_refl Hmoved)
    as (_ & _ & _ & Hbad).
  destruct (Hbad "Expecting value" Htext' eq_refl) as (Hg' & _).
  destruct (success_body_is_decoded_or_empty (X := html_server) connected 0%nat
              token_client "workflows(1)" None (JDict []) moved eq_refl Hmoved)
    as (Hd & _).
  split; [apply Hg; reflexivity |].
  split; [apply Hg'; reflexivity | apply Hd; reflexivity].
Defined.

(** ** Configuration, again *)

Lemma truthy_py_and (a b : option string) : truthy (py_and a b) = truthy a && truthy b.
Proof. unfold py_and. destruct (truthy a) eqn:Ha; [reflexivity | exact Ha]. Qed.

(** X3.  The credential checks look only at which variables are non-empty,
    never at their values: two configurations with the same non-empty
    variables (one may have a variable set to the empty string where the other
    has it unset) get the same answers from all four checks. *)
Theorem credential_checks_see_presence_only (c c' : Config) :
  (forall var, truthy (Config_field c var) = truthy (Config_field c' var)) ->
  has_token_auth c = has_token_auth c'
  /\ has_service_principal_auth c = has_service_principal_auth c'
  /\ has_user_auth c = has_user_auth c'
  /\ get_missing_credentials c = get_missing_credentials c'.
Proof.
  intros Hsame.
  pose proof (Hsame "DATAVERSE_URL") as Hurl.
  pose proof (Hsame "DATAVERSE_CLIENT_ID") as Hid.
  pose proof (Hsame "DATAVERSE_CLIENT_SECRET") as Hsecret.
  pose proof (Hsame "DATAVERSE_TENANT_ID") as Htenant.
  pose proof (Hsame "DATAVERSE_USERNAME") as Huser.
  pose proof (Hsame "DATAVERSE_PASSWORD") as Hpw.
  pose proof (Hsame "DATAVERSE_ACCESS_TOKEN") as Htoken.
  unfold Config_field in *. simpl in *.
  unfold has_token_auth, has_service_principal_auth, has_user_auth,
    get_missing_credentials, py_all.
  rewrite !truthy_py_and. simpl.
  rewrite Hurl, Hid, Hsecret, Htenant, Huser, Hpw, Htoken. auto.
Qed.

Lemma credential_checks_see_presence_only_witness :
  get_missing_credentials
    {| dataverse_url := Some "https://org.crm.dynamics.com"; environment_id := None;
       client_id := Some "app-id"; client_secret := Some ""; tenant_id := Some "tenant";
       username := None; password := None; access_token := Some "" |}
  = get_missing_credentials
      {| dataverse_url := Some "https://org.crm.dynamics.com"; environment_id := None;
         client_id := Some "other-app"; client_secret := None; tenant_id := Some "t2";
         username := None; password := None; access_token := None |}.
Proof.
  apply credential_checks_see_presence_only.
  intros var. unfold Config_field.
  repeat (match goal with
          | |- context [String.eqb var ?k] => destruct (String.eqb var k)
          end; try reflexivity).
Defined.

(** ** The base URL of a client *)





(** ** The client factory, branch by branch *)

Section Branches.

Context `{X : External}.

Lemma service_principal_url (cfg : Config) :
  has_service_principal_auth cfg = true ->
  exists u, dataverse_url cfg = Some u /\ truthy (dataverse_url cfg) = true.
Proof.
  unfold has_service_principal_auth, py_all. simpl. intros Hsp.
  apply andb_prop in Hsp as [Hurl _].
  destruct (dataverse_url cfg) as [u|]; [eauto | discriminate].
Qed.

(** The service-principal branch, as a function of the identity provider's answer. *)
Lemma get_client_service_principal (w w0 : World) (cfg : Config) (u : string) :
  _client w = None ->
  get_config w = (inr cfg, w0) ->
  has_token_auth cfg = false ->
  has_service_principal_auth cfg = true ->
  dataverse_url cfg = Some u ->
  let authority := "https://login.microsoftonline.com/" +:+ str_of_opt (tenant_id cfg) in
  let scope := [u +:+ "/.default"] in
  let ev := EvClientCredentials authority (client_id cfg) (client_secret cfg) scope in
  get_client w =
    match acquire_token_for_client (trace w0) authority (client_id cfg) (client_secret cfg)
            scope with
    | inl e =>
        (inl (ClientError ("Failed to authenticate with service principal: " +:+ exn_str e)),
         with_event ev w0)
    | inr result =>
        match assoc "access_token" result with
        | None =>
            (inl (ClientError
                    ("Failed to authenticate with service principal: "
                     +:+ "Failed to acquire token: "
                     +:+ default (default "Unknown error" (assoc "error" result))
                           (assoc "error_description" result))),
             with_event ev w0)
        | Some t =>
            (inr (length (heap w0)),
             {| _config := _config w0;
                _client := Some (length (heap w0));
                heap := heap w0 ++
                  [{| client_url := Str.rstrip "/" u;
                      client_token := Some t;
                      api_base := Str.rstrip "/" u +:+ "/api/data/v9.2";
                      session_headers :=
                        ci_update (client_default_headers (Some t)) default_headers |}];
                trace := trace w0 ++ [ev] |})
        end
    end.
Proof.
  intros Hc Hcfg Ht Hsp Hu authority scope ev.
  assert (Hm : get_missing_credentials cfg = []) by (apply missing_nil_iff; now right).
  destruct (service_principal_url cfg Hsp) as (u' & Hu' & Hurl).
  unfold get_client, read_client, bind at 1. rewrite Hc.
  rewrite (bind_inr _ _ _ _ _ Hcfg). rewrite Hm, Ht, Hsp.
  unfold _get_service_principal_token, get_auth_scope. rewrite Hurl, Hu. simpl negb.
  cbv iota. simpl default. fold authority. fold scope. fold ev.
  unfold try_except, bind, get_trace, emit, lift_sum, token_of_result, ret, raise.
  cbv beta iota.
  destruct (acquire_token_for_client (trace w0) authority (client_id cfg)
              (client_secret cfg) scope) as [e|result]; [reflexivity |].
  cbv beta iota.
  destruct (assoc "access_token" result) as [t|]; reflexivity.
Qed.

End Branches.

(** X5.  With a token and a URL [get_client] uses the token as it is, also
    when the service-principal or user credentials are complete as well: no
    identity provider is asked, and the new client, now cached, sends
    ["Bearer <token>"]. *)
Theorem token_is_used_as_it_is `{X : External} (w w0 : World) (cfg : Config) :
  _client w = None ->
  get_config w = (inr cfg, w0) ->
  has_token_auth cfg = true ->
  exists c cl w1 t,
    get_client w = (inr c, w1)
    /\ trace w1 = trace w
    /\ _client w1 = Some c
    /\ heap w1 !! c = Some cl
    /\ access_token cfg = Some t
    /\ ci_get "Authorization" (session_headers cl) = Some ("Bearer " +:+ t).
Proof.
  intros Hc Hcfg Ht.
  destruct (get_config_frame _ _ _ Hcfg) as (_ & _ & _ & Htr & _).
  assert (Hm : get_missing_credentials cfg = []) by (apply missing_nil_iff; now left).
  apply token_auth_iff in Ht as Hboth. destruct Hboth as [Ha Hurl].
  apply truthy_Some_nonempty in Ha as (t & Ha & _).
  apply truthy_Some_nonempty in Hurl as (u & Hu & _).
  unfold get_client, read_client, bind at 1. rewrite Hc.
  rewrite (bind_inr _ _ _ _ _ Hcfg). rewrite Hm, Ht.
  unfold DataverseClient_init. rewrite Hu, Ha.
  unfold bind, alloc, set_client, ret. simpl.
  eexists _, _, _, t. split; [reflexivity |]. simpl.
  split; [exact Htr |]. split; [reflexivity |]. split.
  { rewrite lookup_app_r by lia. rewrite Nat.sub_diag. reflexivity. }
  split; [reflexivity |]. simpl.
  unfold ci_update. simpl.
  rewrite !ci_get_set_other by (vm_compute; discriminate). apply ci_get_set_same.
Qed.

Lemma token_is_used_as_it_is_witness :
  fst (get_client (X := not_found_server) fresh) = inr 0%nat
  /\ trace (snd (get_client (X := not_found_server) fresh)) = [].
Proof.
  destruct (token_is_used_as_it_is (X := not_found_server) fresh
              (snd (get_config (X := not_found_server) fresh)) (Config_init token_env)
              eq_refl eq_refl eq_refl) as (c & cl & w1 & t & Hg & Htr & _).
  rewrite Hg. simpl. split; [|exact Htr].
  pose proof (get_client_token_env) as Hcomputed. rewrite Hg in Hcomputed.
  now injection Hcomputed as -> _.
Defined.

(** X6.  Without a token and with complete service-principal credentials,
    [get_client] asks the identity provider once, for the tenant's authority
    and the scope ["<url>/.default"] (the URL as configured, not trimmed);
    the token it is given becomes the bearer token of the new, cached client. *)
Theorem service_principal_token_becomes_bearer `{X : External} (w w0 : World)
    (cfg : Config) (u t : string) (result : list (string * string)) :
  _client w = None ->
  get_config w = (inr cfg, w0) ->
  has_token_auth cfg = false ->
  has_service_principal_auth cfg = true ->
  dataverse_url cfg = Some u ->
  let authority := "https://login.microsoftonline.com/" +:+ str_of_opt (tenant_id cfg) in
  acquire_token_for_client (trace w) authority (client_id cfg) (client_secret cfg)
    [u +:+ "/.default"] = inr result ->
  assoc "access_token" result = Some t ->
  exists c cl w1,
    get_client w = (inr c, w1)
    /\ trace w1 = trace w ++ [EvClientCredentials authority (client_id cfg)
                                (client_secret cfg) [u +:+ "/.default"]]
    /\ _client w1 = Some c
    /\ heap w1 !! c = Some cl
    /\ client_token cl = Some t
    /\ ci_get "Authorization" (session_headers cl) = Some ("Bearer " +:+ t).
Proof.
  intros Hc Hcfg Ht Hsp Hu authority Hans Htok.
  destruct (get_config_frame _ _ _ Hcfg) as (_ & _ & _ & Htr & _).
  pose proof (get_client_service_principal w w0 cfg u Hc Hcfg Ht Hsp Hu) as Hg.
  simpl in Hg. fold authority in Hg. rewrite Htr, Hans, Htok in Hg.
  eexists _, _, _. split; [exact Hg |]. simpl.
  split; [reflexivity |]. split; [reflexivity |]. split.
  { rewrite lookup_app_r by lia. rewrite Nat.sub_diag. reflexivity. }
  split; [reflexivity |]. simpl.
  unfold ci_update. simpl.
  rewrite !ci_get_set_other by (vm_compute; discriminate). apply ci_get_set_same.
Qed.

Lemma service_principal_token_becomes_bearer_witness :
  exists cl,
    heap (snd (get_client (X := service_principal_process) fresh)) !! 0%nat = Some cl
    /\ ci_get "Authorization" (session_headers cl) = Some "Bearer eyJhbGci".
Proof.
  destruct (service_principal_token_becomes_bearer (X := service_principal_process) fresh
              (snd (get_config (X := service_principal_process) fresh))
              (Config_init service_principal_env) "https://org.crm.dynamics.com"
              "eyJhbGci" [("token_type", "Bearer"); ("access_token", "eyJhbGci")]
              eq_refl eq_refl eq_refl eq_refl eq_refl eq_refl eq_refl)
    as (c & cl & w1 & Hg & _ & _ & Hcl & _ & Hauth).
  exists cl. rewrite Hg. simpl.
  assert (c = 0%nat) as <-.
  { assert (Hfst : fst (get_client (X := service_principal_process) fresh) = inr 0%nat)
      by reflexivity.
    rewrite Hg in Hfst. now injection Hfst. }
  split; assumption.
Defined.

(** X7.  When the identity provider gives no token, [get_client] fails with a
    [ClientError] that names the service-principal strategy and carries the
    provider's [error_description], else its [error], else "Unknown error";
    an exception raised by the identity library is wrapped the same way. *)
Theorem service_principal_failure_is_named `{X : External} (w w0 : World) (cfg : Config)
    (u : string) :
  _client w = None ->
  get_config w = (inr cfg, w0) ->
  has_token_auth cfg = false ->
  has_service_principal_auth cfg = true ->
  dataverse_url cfg = Some u ->
  let authority := "https://login.microsoftonline.com/" +:+ str_of_opt (tenant_id cfg) in
  let answer := acquire_token_for_client (trace w) authority (client_id cfg)
                  (client_secret cfg) [u +:+ "/.default"] in
  (forall e, answer = inl e ->
     fst (get_client w)
     = inl (ClientError ("Failed to authenticate with service principal: " +:+ exn_str e)))
  /\ (forall result, answer = inr result -> assoc "access_token" result = None ->
        fst (get_client w)
        = inl (ClientError
                 ("Failed to authenticate with service principal: "
                  +:+ "Failed to acquire token: "
                  +:+ match assoc "error_description" result, assoc "error" result with
                      | Some description, _ => description
                      | None, Some error => error
                      | None, None => "Unknown error"
                      end))).
Proof.
  intros Hc Hcfg Ht Hsp Hu authority answer.
  destruct (get_config_frame _ _ _ Hcfg) as (_ & _ & _ & Htr & _).
  pose proof (get_client_service_principal w w0 cfg u Hc Hcfg Ht Hsp Hu) as Hg.
  simpl in Hg. fold authority in Hg. rewrite Htr in Hg. fold answer in Hg.
  split.
  - intros e He. rewrite Hg, He. reflexivity.
  - intros result Hr Hnone. rewrite Hg, Hr, Hnone. simpl.
    destruct (assoc "error_description" result), (assoc "error" result); reflexivity.
Qed.

Lemma service_principal_failure_is_named_witness :
  fst (get_client (X := refused_process) fresh)
  = inl (ClientError ("Failed to authenticate with service principal: "
                      +:+ "Failed to acquire token: "
                      +:+ "AADSTS7000215: Invalid client secret")).
Proof.
  destruct (service_principal_failure_is_named (X := refused_process) fresh
              (snd (get_config (X := refused_process) fresh))
              (Config_init service_principal_env) "https://org.crm.dynamics.com"
              eq_refl eq_refl eq_refl eq_refl eq_refl) as [_ Hrefused].
  rewrite (Hrefused [("error", "invalid_client");
                     ("error_description", "AADSTS7000215: Invalid client secret")]
             eq_refl eq_refl).
  reflexivity.
Defined.


(** X9.  The configuration is read from the environment once per process: a
    later [get_config] returns the cached one whatever the environment has
    become, and only after [reset_config] is the environment read again. *)
Theorem configuration_is_read_once (X1 X2 : External) (w w0 : World) (cfg : Config) :
  get_config (X := X1) w = (inr cfg, w0) ->
  get_config (X := X2) w0 = (inr cfg, w0)
  /\ fst (get_config (X := X2) (snd (reset_config w0)))
     = inr (Config_init (getenv (External := X2))).
Proof.
  intros Hcfg. destruct (get_config_frame (X := X1) _ _ _ Hcfg) as (Hc0 & _).
  split; [|reflexivity]. unfold get_config. now rewrite Hc0.
Qed.

Lemma configuration_is_read_once_witness :
  fst (get_config (X := service_principal_process)
         (snd (get_config (X := user_process) fresh)))
  = inr (Config_init user_env).
Proof.
  destruct (configuration_is_read_once user_process service_principal_process fresh
              (snd (get_config (X := user_process) fresh)) (Config_init user_env) eq_refl)
    as [Hcached _].
  now rewrite Hcached.
Defined.

Section Allocation.

Context `{X : External}.

(** An uncached call that succeeds has allocated exactly one object, the
    one it returns. *)
Lemma get_client_allocates (w w1 : World) (c : loc) :
  _client w = None ->
  get_client w = (inr c, w1) ->
  c = length (heap w) /\ exists cl, heap w1 = heap w ++ [cl].
Proof.
  intros Hc Hg. run_get_client. rewrite Hc in Hg. simpl in Hg.
  repeat (case_match;
          unfold bind, try_except, raise, ret, lift_sum, token_of_result, get_trace, emit,
            alloc, set_client in *;
          simplify_eq; simpl in *; try done; try (split; [reflexivity | eauto])).
Qed.

End Allocation.

(** X10.  After [reset_client] the next successful [get_client] builds a new
    client object at a new address; the object handed out before stays where
    it was, unchanged, but is no longer the cached one. *)
Theorem reset_client_forces_a_new_instance `{X : External} (w w1 w2 : World) (c c' : loc) :
  (forall c0, _client w = Some c0 -> (c0 < length (heap w))%nat) ->
  get_client w = (inr c, w1) ->
  get_client (snd (reset_client w1)) = (inr c', w2) ->
  c' <> c /\ c' = length (heap w1) /\ _client w2 = Some c'
  /\ heap w2 !! c = heap w1 !! c.
Proof.
  intros Hwf Hg Hg'.
  assert (Hlt : (c < length (heap w1))%nat).
  { destruct (_client w) as [c0|] eqn:Hc.
    - rewrite (get_client_cached w c0 Hc) in Hg. simplify_eq. now apply Hwf.
    - destruct (get_client_allocates w w1 c Hc Hg) as (-> & cl & ->).
      rewrite length_app. simpl. lia. }
  destruct (get_client_allocates (snd (reset_client w1)) w2 c' eq_refl Hg')
    as (Hc' & cl & Hheap).
  simpl in Hc', Hheap. subst c'.
  split; [lia |]. split; [reflexivity |].
  split; [now apply get_client_caches with (snd (reset_client w1)) |].
  rewrite Hheap. now apply lookup_app_l.
Qed.

Lemma reset_client_forces_a_new_instance_witness :
  fst (get_client (X := service_principal_process)
         (snd (reset_client
                 (snd (get_client (X := service_principal_process) fresh)))))
  = inr 1%nat.
Proof.
  assert (Hsecond :
    get_client (X := service_principal_process)
      (snd (reset_client (snd (get_client (X := service_principal_process) fresh))))
    = (inr 1%nat,
       snd (get_client (X := service_principal_process)
              (snd (reset_client
                      (snd (get_client (X := service_principal_process) fresh)))))))
    by reflexivity.
  destruct (reset_client_forces_a_new_instance (X := service_principal_process) fresh
              (snd (get_client (X := service_principal_process) fresh)) _ 0%nat 1%nat
              ltac:(discriminate) eq_refl Hsecond) as (_ & _ & _ & _).
  now rewrite Hsecond.
Defined.

(** ** Commands *)

Section CommandFacts.

Context `{X : External}.

Lemma command_inl (body : M unit) (w w1 : World) (e : exn) :
  body w = (inl e, w1) ->
  command body w = (inl (Exit (handle_api_error e)), with_event (EvHandleApiError e) w1).
Proof. intros Hb. unfold command, try_except. rewrite Hb. reflexivity. Qed.

Lemma command_inr (body : M unit) (w w1 : World) :
  body w = (inr tt, w1) -> command body w = (inr tt, w1).
Proof. intros Hb. unfold command, try_except. now rewrite Hb. Qed.

End CommandFacts.



(** ** Records and comprehensions *)

Lemma dict_get_set_same (k : string) (v : json) (d : list (string * json)) :
  dict_get k (dict_set k v d) = v.
Proof.
  induction d as [|[k' v'] d IH]; simpl.
  - now rewrite String.eqb_refl.
  - destruct (String.eqb k k') eqn:E; simpl; [now rewrite String.eqb_refl | now rewrite E].
Qed.

Lemma dict_get_set_other (k k' : string) (v : json) (d : list (string * json)) :
  k' <> k -> dict_get k' (dict_set k v d) = dict_get k' d.
Proof.
  intros Hne. induction d as [|[k0 v0] d IH]; simpl.
  - now apply String.eqb_neq in Hne as ->.
  - destruct (String.eqb k k0) eqn:E; simpl.
    + apply String.eqb_eq in E as <-. now apply String.eqb_neq in Hne as ->.
    + now rewrite IH.
Qed.

Section Comprehensions.

Context `{X : External}.

Lemma in_solution_records (solution_id : json) (fl : list json) (w : World) :
  Forall (fun f => is_dict f = true) fl ->
  in_solution solution_id fl w
  = (inr (filter (fun f => py_eq (entry "solutionid" f) solution_id = true) fl), w).
Proof.
  induction 1 as [|f fl Hf _ IH]; [reflexivity |].
  destruct f as [| | | | |d]; try discriminate.
  simpl. unfold bind, ret. simpl. rewrite IH. rewrite filter_cons. simpl.
  destruct (py_eq (dict_get "solutionid" d) solution_id); reflexivity.
Qed.

Lemma object_ids_records (comps : list json) (w : World) :
  Forall (fun f => is_dict f = true) comps ->
  object_ids comps w
  = (inr (filter (fun v => py_truthy v = true) (map (entry "objectid") comps)), w).
Proof.
  induction 1 as [|f comps Hf _ IH]; [reflexivity |].
  destruct f as [| | | | |d]; try discriminate.
  simpl. unfold bind, ret. simpl. rewrite filter_cons. simpl.
  destruct (py_truthy (dict_get "objectid" d)) eqn:Ht; simpl.
  - rewrite IH. reflexivity.
  - exact IH.
Qed.

Lemma fetch_flows_world (client : loc) (c : DataverseClient) (state : option string)
    (w : World) :
  heap w !! client = Some c ->
  exists params,
    snd (fetch_flows client state w)
    = with_event (EvHttp (request_of c GET "workflows" (Some params) None)) w
    /\ dict_get "$filter" params
       = JStr (match state with
               | Some (String _ _ as s) =>
                   if String.eqb (Str.lower s) "activated"
                   then "category eq 5 and statecode eq 1"
                   else "category eq 5 and statecode eq 0"
               | _ => "category eq 5"
               end).
Proof.
  intros Hc. unfold fetch_flows.
  eexists. split.
  - unfold bind. rewrite (surjective_pairing (DataverseClient_get _ _ _ _)).
    rewrite (get_world client c) by exact Hc.
    destruct (fst _); reflexivity.
  - destruct state as [[|a s]|]; try reflexivity.
    simpl truthy. cbv iota. unfold str_of_opt. simpl default.
    destruct (String.eqb (Str.lower (String a s)) "activated"); reflexivity.
Qed.

End Comprehensions.

(** X12.  The flow listing always asks for category 5; with a non-empty
    [--state] it adds [statecode eq 1] when the value is "activated" in any
    letter case and [statecode eq 0] for every other value, a misspelt one
    included; an empty or absent state adds nothing. *)
Theorem state_filter_is_activated_or_draft `{X : External} (client : loc)
    (c : DataverseClient) (state : option string) (w : World) :
  heap w !! client = Some c ->
  exists params,
    trace (snd (fetch_flows client state w))
    = trace w ++ [EvHttp (request_of c GET "workflows" (Some params) None)]
    /\ dict_get "$filter" params
       = JStr (match state with
               | Some (String _ _ as s) =>
                   if String.eqb (Str.lower s) "activated"
                   then "category eq 5 and statecode eq 1"
                   else "category eq 5 and statecode eq 0"
               | _ => "category eq 5"
               end).
Proof.
  intros Hc. destruct (fetch_flows_world client c state w Hc) as (params & Hw & Hf).
  exists params. rewrite Hw. split; [reflexivity | exact Hf].
Qed.

Lemma state_filter_is_activated_or_draft_witness :
  exists params,
    trace (snd (fetch_flows (X := empty_server) 0%nat (Some "ACTIVATED") connected))
    = [EvHttp (request_of token_client GET "workflows" (Some params) None)]
    /\ dict_get "$filter" params = JStr "category eq 5 and statecode eq 1".
Proof.
  destruct (state_filter_is_activated_or_draft (X := empty_server) 0%nat token_client
              (Some "ACTIVATED") connected eq_refl) as (params & Htr & Hf).
  exists params. split; [exact Htr | exact Hf].
Defined.

(** X13.  When the solution name resolves, the flow listing keeps exactly the
    fetched flows whose [solutionid] equals the id of the first solution
    found, in their order; further solutions of that name are not looked at,
    and no flow is added. *)
Theorem filter_keeps_flows_of_first_solution `{X : External} (client : loc)
    (solution : option string) (fl others : list json) (d : list (string * json))
    (solution_result : json) (w w1 : World) :
  truthy solution = true ->
  DataverseClient_get client "solutions" (Some (solution_lookup_params solution)) w
  = (inr solution_result, w1) ->
  format_response solution_result = JList (JDict d :: others) ->
  Forall (fun f => is_dict f = true) fl ->
  filter_by_solution client solution (JList fl) w
  = (inr (JList (filter (fun f => py_eq (entry "solutionid" f) (dict_get "solutionid" d)
                                  = true) fl)), w1).
Proof.
  intros Hsol Hget Hfmt Hrecords.
  unfold filter_by_solution. rewrite Hsol. cbn [andb is_list].
  rewrite (bind_inr _ _ _ _ _ Hget). rewrite Hfmt. cbn [py_truthy py_first py_get py_iter].
  unfold py_get. unfold bind, ret. cbv beta iota.
  rewrite (in_solution_records _ fl w1 Hrecords). reflexivity.
Qed.

Lemma filter_keeps_flows_of_first_solution_witness :
  fst (filter_by_solution (X := two_flows_server) 0%nat (Some "Progress")
         (JList [flow_a; flow_b]) connected)
  = inr (JList [flow_a]).
Proof.
  assert (Hrecords : Forall (fun f => is_dict f = true) [flow_a; flow_b])
    by (repeat constructor).
  rewrite (filter_keeps_flows_of_first_solution (X := two_flows_server) 0%nat
             (Some "Progress") [flow_a; flow_b] [JDict [("solutionid", JStr "s-2")]]
             [("solutionid", JStr "s-1")]
             (JDict [("value", JList [JDict [("solutionid", JStr "s-1")];
                                      JDict [("solutionid", JStr "s-2")]])])
             connected
             (snd (DataverseClient_get (X := two_flows_server) 0%nat "solutions"
                     (Some (solution_lookup_params (Some "Progress"))) connected))
             eq_refl eq_refl eq_refl Hrecords).
  reflexivity.
Defined.

Section Resolution.

Context `{X : External}.

Lemma resolve_with_id (client : loc) (solution_id name : option string) (w : World) :
  truthy solution_id = true ->
  resolve_solution_id client solution_id name w = (inr (of_opt solution_id), w).
Proof.
  intros Hid. unfold resolve_solution_id. rewrite Hid, andb_false_r.
  unfold bind, ret.
  replace (py_truthy (of_opt solution_id)) with true; [reflexivity |].
  destruct solution_id as [s|]; [symmetry; exact Hid | discriminate].
Qed.

End Resolution.

(** X14.  An explicit solution id takes precedence over a name: with a
    non-empty [--id] the name is not looked up (no request is made to resolve
    it) and the solution commands behave as if no name had been given. *)
Theorem explicit_id_wins_over_name `{X : External} (solution_id name component_type
    : option string) (table_format : bool) (client : loc) (w : World) :
  truthy solution_id = true ->
  resolve_solution_id client solution_id name w = (inr (of_opt solution_id), w)
  /\ get_solution solution_id name w = get_solution solution_id None w
  /\ list_solution_components solution_id name component_type w
     = list_solution_components solution_id None component_type w
  /\ list_solution_flows solution_id name table_format w
     = list_solution_flows solution_id None table_format w.
Proof.
  intros Hid. split; [now apply resolve_with_id |]. split; [|split].
  - unfold get_solution. now rewrite Hid.
  - unfold list_solution_components, command, try_except, bind.
    destruct (get_client w) as [[e|c] w1]; [reflexivity |].
    now rewrite !(resolve_with_id c solution_id _ w1 Hid).
  - unfold list_solution_flows, command, try_except, bind.
    destruct (get_client w) as [[e|c] w1]; [reflexivity |].
    now rewrite !(resolve_with_id c solution_id _ w1 Hid).
Qed.

Lemma explicit_id_wins_over_name_witness :
  trace (snd (list_solution_components (X := two_flows_server) (Some "s-1")
                (Some "Progress") None connected))
  = trace (snd (list_solution_components (X := two_flows_server) (Some "s-1") None None
                  connected)).
Proof.
  destruct (explicit_id_wins_over_name (X := two_flows_server) (Some "s-1")
              (Some "Progress") None false 0%nat connected eq_refl)
    as (_ & _ & Hc & _).
  now rewrite Hc.
Defined.

(** X15.  A solution name that does not resolve to a non-empty list stops the
    solution commands: they report ["Error: Solution '<name>' not found"],
    never query the components, and exit through [handle_api_error], which is
    given the exit request itself.  (The flow listing, in contrast, goes on
    without the filter.) *)
Theorem unknown_solution_name_stops_the_command `{X : External} (client : loc)
    (solution_id name component_type : option string) (solution_result : json)
    (w0 w w1 : World) :
  truthy name = true ->
  truthy solution_id = false ->
  get_client w0 = (inr client, w) ->
  DataverseClient_get client "solutions" (Some (solution_lookup_params name)) w
  = (inr solution_result, w1) ->
  is_list (format_response solution_result) && py_truthy (format_response solution_result)
  = false ->
  let not_found := EvEcho ("Error: Solution '" +:+ str_of_opt name +:+ "' not found") in
  let stopped := (inl (Exit (handle_api_error (Exit 1))),
                  with_event (EvHandleApiError (Exit 1)) (with_event not_found w1)) in
  (forall table_format, list_solution_flows solution_id name table_format w0 = stopped)
  /\ list_solution_components solution_id name component_type w0 = stopped.
Proof.
  intros Hname Hid Hclient Hget Hnone not_found stopped.
  assert (Hres : resolve_solution_id client solution_id name w
                 = (inl (Exit 1), with_event not_found w1)).
  { unfold resolve_solution_id. rewrite Hname, Hid. cbn [andb negb].
    apply bind_inl. rewrite (bind_inr _ _ _ _ _ Hget). rewrite Hnone. reflexivity. }
  split; [intros table_format |].
  - apply command_inl. rewrite (bind_inr _ _ _ _ _ Hclient). now apply bind_inl.
  - apply command_inl. rewrite (bind_inr _ _ _ _ _ Hclient). now apply bind_inl.
Qed.

Lemma unknown_solution_name_stops_the_command_witness :
  list_solution_flows (X := empty_server) None (Some "Nowhere") false connected
  = (inl (Exit 1),
     with_event (EvHandleApiError (Exit 1))
       (with_event (EvEcho "Error: Solution 'Nowhere' not found")
          (snd (DataverseClient_get (X := empty_server) 0%nat "solutions"
                  (Some (solution_lookup_params (Some "Nowhere"))) connected)))).
Proof.
  destruct (unknown_solution_name_stops_the_command (X := empty_server) 0%nat None
              (Some "Nowhere") None (JDict [("value", JList [])]) connected connected
              (snd (DataverseClient_get (X := empty_server) 0%nat "solutions"
                      (Some (solution_lookup_params (Some "Nowhere"))) connected))
              eq_refl eq_refl eq_refl eq_refl eq_refl) as [Hflows _].
  exact (Hflows false).
Defined.

(** X16.  The solution's flows are fetched in two requests: the components
    (records) are read, those without an object id are skipped, and the second
    request asks [workflows] for category 5 and the disjunction
    ["workflowid eq <id>"] of the remaining ids, joined by " or " in the
    order of the components. *)
Theorem workflows_are_asked_by_id `{X : External} (client : loc) (c : DataverseClient)
    (solution_id component_result : json) (comps : list json) (w w1 : World) :
  DataverseClient_get client "solutioncomponents" (Some (component_params solution_id)) w
  = (inr component_result, w1) ->
  heap w1 !! client = Some c ->
  format_response component_result = JList comps ->
  Forall (fun comp => is_dict comp = true) comps ->
  let ids := filter (fun v => py_truthy v = true) (map (entry "objectid") comps) in
  ids <> [] ->
  exists params,
    trace (snd (solution_workflows client solution_id w))
    = trace w1 ++ [EvHttp (request_of c GET "workflows" (Some params) None)]
    /\ dict_get "$filter" params
       = JStr ("category eq 5 and ("
               +:+ Str.join " or " (map (fun wid => "workflowid eq " +:+ py_str wid) ids)
               +:+ ")").
Proof.
  intros Hget Hc Hfmt Hrecords ids Hids.
  assert (Hcomps : comps <> []) by (intros ->; now apply Hids).
  unfold solution_workflows. rewrite (bind_inr _ _ _ _ _ Hget). rewrite Hfmt.
  replace (py_truthy (JList comps)) with true by (destruct comps; [done | reflexivity]).
  cbn [negb py_iter]. unfold bind at 1. unfold ret at 1.
  rewrite (bind_inr _ _ _ _ _ (object_ids_records comps w1 Hrecords)). fold ids.
  replace (match ids with [] => false | _ :: _ => true end) with true
    by (destruct ids; [done | reflexivity]).
  cbn [negb]. eexists. split.
  - unfold bind. rewrite (surjective_pairing (DataverseClient_get _ _ _ _)).
    rewrite (get_world client c) by exact Hc.
    destruct (fst _); reflexivity.
  - reflexivity.
Qed.

Lemma workflows_are_asked_by_id_witness :
  exists params,
    last (trace (snd (solution_workflows (X := two_flows_server) 0%nat (JStr "s-1")
                        connected)))
    = Some (EvHttp (request_of token_client GET "workflows" (Some params) None))
    /\ dict_get "$filter" params
       = JStr "category eq 5 and (workflowid eq f-a or workflowid eq f-b)".
Proof.
  assert (Hrecords : Forall (fun comp => is_dict comp = true)
                       [JDict [("objectid", JStr "f-a")];
                        JDict [("componenttype", JNum 29)];
                        JDict [("objectid", JStr "f-b")]])
    by (repeat constructor).
  destruct (workflows_are_asked_by_id (X := two_flows_server) 0%nat token_client
              (JStr "s-1")
              (JDict [("value", JList [JDict [("objectid", JStr "f-a")];
                                       JDict [("componenttype", JNum 29)];
                                       JDict [("objectid", JStr "f-b")]])])
              [JDict [("objectid", JStr "f-a")];
               JDict [("componenttype", JNum 29)];
               JDict [("objectid", JStr "f-b")]]
              connected
              (snd (DataverseClient_get (X := two_flows_server) 0%nat "solutioncomponents"
                      (Some (component_params (X := two_flows_server) (JStr "s-1")))
                      connected))
              eq_refl eq_refl eq_refl Hrecords ltac:(discriminate))
    as (params & Htr & Hf).
  exists params. rewrite Htr. split; [|exact Hf].
  simpl. reflexivity.
Defined.

(** X17.  Whenever the table formatting of the flows succeeds, every flow was
    a record, there is one row per flow, and each row is its flow with
    ["state"] set (overwritten if it was there) to "Activated" when the
    [statecode] is 1 and to "Draft" otherwise, a missing [statecode] included;
    every other field is as fetched. *)
Theorem table_rows_keep_the_fetched_fields (fl rows : list json)
    (w w' : World) :
  set_states fl w = (inr rows, w') ->
  w' = w
  /\ Forall2 (fun f row =>
                exists d d',
                  f = JDict d /\ row = JDict d'
                  /\ dict_get "state" d'
                     = JStr (if is_one (dict_get "statecode" d) then "Activated" else "Draft")
                  /\ forall k, k <> "state" -> dict_get k d' = dict_get k d) fl rows.
Proof.
  revert rows w'. induction fl as [|f fl IH]; intros rows w' Hrun.
  - simpl in Hrun. unfold ret in Hrun. simplify_eq. split; [reflexivity | constructor].
  - simpl in Hrun. unfold bind, py_get in Hrun.
    destruct f as [| | | | |d]; try (unfold raise in Hrun; discriminate).
    unfold ret in Hrun. simpl in Hrun.
    destruct (set_states fl w) as [[e|rows'] w1] eqn:Hrest; [discriminate |].
    simplify_eq. destruct (IH rows' w' eq_refl) as [-> Hall].
    split; [reflexivity |]. constructor; [|exact Hall].
    eexists d, _. split; [reflexivity |]. split; [reflexivity |]. split.
    + apply dict_get_set_same.
    + intros k Hk. now apply dict_get_set_other.
Qed.

Lemma table_rows_keep_the_fetched_fields_witness :
  Forall2 (fun f row =>
             exists d d',
               f = JDict d /\ row = JDict d'
               /\ dict_get "state" d'
                  = JStr (if is_one (dict_get "statecode" d) then "Activated" else "Draft")
               /\ forall k, k <> "state" -> dict_get k d' = dict_get k d)
    [flow_a; flow_b]
    [JDict [("workflowid", JStr "f-a"); ("name", JStr "A"); ("statecode", JNum 1);
            ("solutionid", JStr "s-1"); ("state", JStr "Activated")];
     JDict [("workflowid", JStr "f-b"); ("name", JStr "B"); ("statecode", JNum 0);
            ("solutionid", JStr "s-2"); ("state", JStr "Draft")]].
Proof.
  exact (proj2 (table_rows_keep_the_fetched_fields [flow_a; flow_b] _ connected connected
                  eq_refl)).
Defined.



(** X19.  The table of an entity query takes its columns from the first
    record only, at most the first six of its keys in their order; the table
    is printed with all the records. *)
Theorem query_table_has_at_most_six_columns `{X : External} (entity_name : string)
    (filter_query select orderby : option string) (top : option Z) (client : loc)
    (result : json) (d : list (string * json)) (rest : list json) (w0 w1 w2 : World) :
  get_client w0 = (inr client, w1) ->
  DataverseClient_get client entity_name
    (Some (query_params filter_query select orderby top)) w1 = (inr result, w2) ->
  format_response result = JList (JDict d :: rest) ->
  query_entity entity_name filter_query select orderby top true w0
  = (inr tt, with_event (EvPrintTable (JList (JDict d :: rest)) (take 6 (map fst d))) w2)
  /\ (length (take 6 (map fst d)) <= 6)%nat.
Proof.
  intros Hclient Hget Hfmt. split; [|rewrite length_take; lia].
  apply command_inr. rewrite (bind_inr _ _ _ _ _ Hclient), (bind_inr _ _ _ _ _ Hget).
  rewrite Hfmt. cbn [andb is_list py_truthy].
  unfold py_first, py_keys, bind, ret. cbv beta iota.
  destruct (6 <? length (map fst d))%nat eqn:Hlen; [reflexivity |].
  apply Nat.ltb_ge in Hlen. now rewrite take_ge.
Qed.

Lemma query_table_has_at_most_six_columns_witness :
  last (trace (snd (query_entity (X := two_flows_server) "workflows" None None None None
                      true connected)))
  = Some (EvPrintTable (JList [flow_a; flow_b])
            ["workflowid"; "name"; "statecode"; "solutionid"]).
Proof.
  destruct (query_table_has_at_most_six_columns (X := two_flows_server) "workflows"
              None None None None 0%nat
              (JDict [("value", JList [flow_a; flow_b])])
              [("workflowid", JStr "f-a"); ("name", JStr "A"); ("statecode", JNum 1);
               ("solutionid", JStr "s-1")]
              [flow_b] connected connected
              (snd (DataverseClient_get (X := two_flows_server) 0%nat "workflows"
                      (Some []) connected))
              eq_refl eq_refl eq_refl) as [Hq _].
  rewrite Hq. reflexivity.
Defined.

(** X20.  The count an entity count prints is the [@odata.count] entry of the
    server's answer, and 0 when the answer has no such entry: the records the
    answer holds are not counted. *)
Theorem count_is_zero_without_odata_count `{X : External} (entity_name : string)
    (filter_query : option string) (client : loc) (d : list (string * json))
    (w0 w1 w2 : World) :
  get_client w0 = (inr client, w1) ->
  DataverseClient_get client entity_name (Some (count_params filter_query)) w1
  = (inr (JDict d), w2) ->
  (forall n, dict_find "@odata.count" d = Some n ->
     count_records entity_name filter_query w0
     = (inr tt, with_event (EvPrintJson (JDict [("entity", JStr entity_name);
                                                ("count", n)])) w2))
  /\ (dict_find "@odata.count" d = None ->
      count_records entity_name filter_query w0
      = (inr tt, with_event (EvPrintJson (JDict [("entity", JStr entity_name);
                                                 ("count", JNum 0)])) w2)).
Proof.
  intros Hclient Hget.
  split; [intros n Hn | intros Hn]; apply command_inr;
    rewrite (bind_inr _ _ _ _ _ Hclient), (bind_inr _ _ _ _ _ Hget);
    unfold py_get_default, bind, ret; rewrite Hn; reflexivity.
Qed.

Lemma count_is_zero_without_odata_count_witness :
  last (trace (snd (count_records (X := uncounted_server) "workflows" None connected)))
  = Some (EvPrintJson (JDict [("entity", JStr "workflows"); ("count", JNum 0)])).
Proof.
  destruct (count_is_zero_without_odata_count (X := uncounted_server) "workflows" None
              0%nat [("value", JList [flow_a; flow_b])] connected connected
              (snd (DataverseClient_get (X := uncounted_server) 0%nat "workflows"
                      (Some (count_params None)) connected))
              eq_refl eq_refl) as [_ Hzero].
  rewrite Hzero by reflexivity. reflexivity.
Defined.

(** X21.  [get_entity_metadata] and [get_solution --name] print the first
    record of the answer alone when the formatted answer is a non-empty list,
    and the formatted answer itself otherwise; an empty list is printed as it
    is and the command ends normally. *)
Theorem only_the_first_match_is_printed `{X : External} (entity_name name : string)
    (client : loc) (result : json) (w0 w1 w2 : World) :
  get_client w0 = (inr client, w1) ->
  let shown := match format_response result with
               | JList (first :: _) => first
               | formatted => formatted
               end in
  (DataverseClient_get client "EntityDefinitions"
     (Some [("$filter", JStr ("LogicalName eq '" +:+ entity_name +:+ "'"));
            ("$select",
             JStr "LogicalName,DisplayName,PrimaryIdAttribute,PrimaryNameAttribute,EntitySetName")])
     w1 = (inr result, w2) ->
   get_entity_metadata entity_name w0 = (inr tt, with_event (EvPrintJson shown) w2))
  /\ (Str.nonempty name = true ->
      DataverseClient_get client "solutions"
        (Some [("$filter", JStr ("friendlyname eq '" +:+ name +:+ "'"))]) w1
      = (inr result, w2) ->
      forall solution_id, truthy solution_id = false ->
      get_solution solution_id (Some name) w0
      = (inr tt, with_event (EvPrintJson shown) w2)).
Proof.
  intros Hclient shown.
  assert (Hprint : forall w, print_first_or_all (format_response result) w
                             = (inr tt, with_event (EvPrintJson shown) w)).
  { intros w. unfold print_first_or_all, shown.
    destruct (format_response result) as [| | | |[|first rest]|]; reflexivity. }
  split.
  - intros Hget. apply command_inr.
    rewrite (bind_inr _ _ _ _ _ Hclient), (bind_inr _ _ _ _ _ Hget). apply Hprint.
  - intros Hname Hget solution_id Hid. apply command_inr.
    rewrite (bind_inr _ _ _ _ _ Hclient). rewrite Hid.
    unfold truthy. rewrite Hname. unfold str_of_opt.
    rewrite (bind_inr _ _ _ _ _ Hget). apply Hprint.
Qed.

Lemma only_the_first_match_is_printed_witness :
  last (trace (snd (get_entity_metadata (X := two_flows_server) "workflow" connected)))
  = Some (EvPrintJson flow_a)
  /\ last (trace (snd (get_solution (X := two_flows_server) None (Some "A") connected)))
     = Some (EvPrintJson (JDict [("solutionid", JStr "s-1")])).
Proof.
  destruct (only_the_first_match_is_printed (X := two_flows_server) "workflow" "A" 0%nat
              (JDict [("value", JList [flow_a; flow_b])]) connected connected
              (snd (DataverseClient_get (X := two_flows_server) 0%nat "EntityDefinitions"
                      (Some [("$filter", JStr "LogicalName eq 'workflow'");
                             ("$select",
                              JStr "LogicalName,DisplayName,PrimaryIdAttribute,PrimaryNameAttribute,EntitySetName")])
                      connected))
              eq_refl) as [Hmeta _].
  destruct (only_the_first_match_is_printed (X := two_flows_server) "workflow" "A" 0%nat
              (JDict [("value", JList [JDict [("solutionid", JStr "s-1")];
                                      JDict [("solutionid", JStr "s-2")]])])
              connected connected
              (snd (DataverseClient_get (X := two_flows_server) 0%nat "solutions"
                      (Some [("$filter", JStr "friendlyname eq 'A'")]) connected))
              eq_refl) as [_ Hsol].
  split.
  - rewrite Hmeta by reflexivity. reflexivity.
  - rewrite (Hsol eq_refl eq_refl None eq_refl). reflexivity.
Defined.

Lemma set_managed_rows `{X : External} (solutions : list json) (w : World) :
  Forall (fun s => exists d, s = JDict d) solutions ->
  exists rows,
    set_managed solutions w = (inr rows, w)
    /\ Forall2 (fun s row =>
                  exists d d',
                    s = JDict d /\ row = JDict d'
                    /\ dict_get "managed" d'
                       = JStr (if py_truthy (dict_get "ismanaged" d) then "Yes" else "No")
                    /\ forall k, k <> "managed" -> dict_get k d' = dict_get k d)
         solutions rows.
Proof.
  induction 1 as [|s rest [d ->] _ (rows & Hrun & Hrows)].
  - exists []. split; [reflexivity | constructor].
  - eexists (_ :: rows). split.
    + cbn [set_managed py_get]. unfold bind at 1, ret at 1.
      rewrite (bind_inr _ _ _ _ _ Hrun). reflexivity.
    + constructor; [|exact Hrows].
      exists d, (dict_set "managed"
                   (JStr (if py_truthy (dict_get "ismanaged" d) then "Yes" else "No")) d).
      repeat split.
      * apply dict_get_set_same.
      * intros k Hk. now apply dict_get_set_other.
Qed.

(** X22.  [list_solutions] filters on [ismanaged] whenever [--managed] was
    given, also when it was given as false, and sends no filter otherwise.
    Its table shows each solution with a [managed] entry that is Yes when the
    solution's [ismanaged] is truthy and No otherwise, every other entry kept. *)
Theorem solutions_table_shows_managed_as_yes_or_no `{X : External} (managed : option bool)
    (client : loc) (result : json) (solutions : list json) (w0 w1 w2 : World) :
  get_client w0 = (inr client, w1) ->
  DataverseClient_get client "solutions" (Some (solutions_params managed)) w1
  = (inr result, w2) ->
  format_response result = JList solutions ->
  Forall (fun s => exists d, s = JDict d) solutions ->
  dict_get "$filter" (solutions_params managed)
  = match managed with
    | Some true => JStr "ismanaged eq true"
    | Some false => JStr "ismanaged eq false"
    | None => JNull
    end
  /\ exists rows,
       list_solutions managed true w0
       = (inr tt, with_event (EvPrintTable (JList rows)
                                ["friendlyname"; "uniquename"; "version"; "managed"]) w2)
       /\ Forall2 (fun s row =>
                     exists d d',
                       s = JDict d /\ row = JDict d'
                       /\ dict_get "managed" d'
                          = JStr (if py_truthy (dict_get "ismanaged" d) then "Yes" else "No")
                       /\ forall k, k <> "managed" -> dict_get k d' = dict_get k d)
            solutions rows.
Proof.
  intros Hclient Hget Hfmt Hdicts. split.
  - destruct managed as [[|]|]; reflexivity.
  - destruct (set_managed_rows solutions w2 Hdicts) as (rows & Hrun & Hrows).
    exists rows. split; [|exact Hrows].
    apply command_inr.
    rewrite (bind_inr _ _ _ _ _ Hclient), (bind_inr _ _ _ _ _ Hget), Hfmt.
    cbn [andb is_list py_iter]. unfold bind at 1, ret at 1.
    rewrite (bind_inr _ _ _ _ _ Hrun). reflexivity.
Qed.

Lemma solutions_table_shows_managed_as_yes_or_no_witness :
  exists rows,
    last (trace (snd (list_solutions (X := two_solutions_server) (Some false) true
                        connected)))
    = Some (EvPrintTable (JList rows) ["friendlyname"; "uniquename"; "version"; "managed"])
    /\ Forall2 (fun s row => entry "managed" row
                             = JStr (if py_truthy (entry "ismanaged" s) then "Yes" else "No"))
         [solution_a; solution_b] rows.
Proof.
  assert (Hdicts : Forall (fun s => exists d, s = JDict d) [solution_a; solution_b])
    by (repeat constructor; eexists; reflexivity).
  destruct (solutions_table_shows_managed_as_yes_or_no (X := two_solutions_server)
              (Some false) 0%nat (JDict [("value", JList [solution_a; solution_b])])
              [solution_a; solution_b] connected connected
              (snd (DataverseClient_get (X := two_solutions_server) 0%nat "solutions"
                      (Some (solutions_params (Some false))) connected))
              eq_refl eq_refl eq_refl Hdicts) as (_ & rows & Hrun & Hrows).
  exists rows. split.
  - rewrite Hrun. reflexivity.
  - eapply Forall2_impl; [exact Hrows |].
    intros s row (d & d' & -> & -> & Hm & _). exact Hm.
Defined.

Lemma bind_inr_inv {A B} (m : M A) (k : A -> M B) (w w' : World) (b : B) :
  bind m k w = (inr b, w') -> exists a w1, m w = (inr a, w1) /\ k a w1 = (inr b, w').
Proof.
  unfold bind. destruct (m w) as [[e|a] w1]; [discriminate |].
  intros Hk. now exists a, w1.
Qed.

Lemma print_lines_run `{X : External} (lines : list string) (w : World) :
  exists w', print_lines lines w = (inr tt, w')
             /\ trace w' = trace w ++ map EvEcho lines
             /\ heap w' = heap w /\ _client w' = _client w /\ _config w' = _config w.
Proof.
  revert w. induction lines as [|l rest IH]; intros w.
  - exists w. cbn. now rewrite app_nil_r.
  - destruct (IH (with_event (EvEcho l) w)) as (w' & Hrun & Htr & Hh & Hc & Hg).
    exists w'. repeat split; try assumption.
    rewrite Htr. cbn. now rewrite <- app_assoc.
Qed.

Lemma delete_inr_inv `{X : External} (self : loc) (endpoint : string) (w w' : World) :
  DataverseClient_delete self endpoint w = (inr tt, w') ->
  exists c r,
    heap w !! self = Some c
    /\ w' = with_event (EvHttp (request_of c DELETE endpoint None None)) w
    /\ http_send (trace w) (request_of c DELETE endpoint None None) = Responded r
    /\ ~ (400 <= status_code r < 600).
Proof.
  intros Hrun. destruct (heap w !! self) as [c|] eqn:Hc.
  - pose proof (delete_world self c endpoint w Hc) as Hw. rewrite Hrun in Hw.
    simpl in Hw. subst w'.
    destruct (http_send (trace w) (request_of c DELETE endpoint None None)) as [r|msg] eqn:Hs.
    + exists c, r. repeat split; try reflexivity; try assumption.
      intros Hr. rewrite (delete_responded self c endpoint r w Hc Hs) in Hrun.
      destruct (raise_for_status_error (api_base c +:+ "/" +:+ endpoint) r Hr) as [m Hm].
      unfold try_except in Hrun. rewrite Hm in Hrun. discriminate.
    + pose proof (delete_transport self c endpoint msg w Hc Hs) as Hf.
      rewrite Hrun in Hf. discriminate.
  - unfold DataverseClient_delete, bind, deref in Hrun. rewrite Hc in Hrun. discriminate.
Qed.

(** X23.  When the connector cannot be fetched, [delete_connector] returns
    False after one request, the GET of the connector: it reports the failure,
    adds the advice on dependencies when the error mentions them, and sends
    neither the dependency check nor the DELETE. *)
Theorem failed_lookup_sends_no_delete `{X : External} (json_dumps : json -> string)
    (connector_id : string) (force : bool) (client : loc) (c : DataverseClient)
    (msg : string) (w0 w1 : World) :
  get_client w0 = (inr client, w1) ->
  heap w1 !! client = Some c ->
  fst (DataverseClient_get client ("connectors(" +:+ connector_id +:+ ")")
         (Some [("$select", JStr "connectorid,name,displayname")])
         (with_event (EvEcho ("Fetching connector " +:+ connector_id +:+ "...")) w1))
  = inl (ClientError msg) ->
  exists w',
    delete_connector json_dumps connector_id force w0 = (inr false, w')
    /\ trace w'
       = trace w1
         ++ [EvEcho ("Fetching connector " +:+ connector_id +:+ "...");
             EvHttp (request_of c GET ("connectors(" +:+ connector_id +:+ ")")
                       (Some [("$select", JStr "connectorid,name,displayname")]) None);
             EvEcho ("✗ Failed to delete connector: " +:+ msg)]
         ++ (if is_dependency_error (ClientError msg)
             then map EvEcho dependency_advice else []).
Proof.
  intros Hclient Hc Hget.
  set (w1' := with_event (EvEcho ("Fetching connector " +:+ connector_id +:+ "...")) w1)
    in *.
  pose proof (get_world client c ("connectors(" +:+ connector_id +:+ ")")
                (Some [("$select", JStr "connectorid,name,displayname")]) w1' Hc) as Hw.
  destruct (DataverseClient_get client ("connectors(" +:+ connector_id +:+ ")")
              (Some [("$select", JStr "connectorid,name,displayname")]) w1')
    as [res w2] eqn:Hrun.
  simpl in Hget, Hw. subst res w2.
  unfold delete_connector, except_ClientError.
  erewrite try_except_inl; cycle 1.
  { rewrite (bind_inr _ _ _ _ _ Hclient). unfold bind at 1, py_print at 1, emit at 1.
    fold (with_event (EvEcho ("Fetching connector " +:+ connector_id +:+ "...")) w1).
    fold w1'. apply (bind_inl _ _ _ _ _ Hrun). }
  unfold bind at 1, py_print at 1, emit at 1.
  destruct (is_dependency_error (ClientError msg)).
  - match goal with |- context [bind (print_lines ?l) _ ?w] =>
      destruct (print_lines_run l w) as (w' & Hp & Htr & _) end.
    exists w'. rewrite (bind_inr _ _ _ _ _ Hp). split; [reflexivity |].
    rewrite Htr. cbn. now rewrite <- !app_assoc.
  - eexists. split; [reflexivity |]. cbn. now rewrite <- !app_assoc.
Qed.

Lemma failed_lookup_sends_no_delete_witness :
  exists w',
    delete_connector (X := not_found_server) (fun _ => "{}") "c-1" false connected
    = (inr false, w')
    /\ filter (fun ev => is_http_request ev = true) (trace w')
       = [EvHttp (request_of token_client GET "connectors(c-1)"
                    (Some [("$select", JStr "connectorid,name,displayname")]) None)].
Proof.
  destruct (failed_lookup_sends_no_delete (X := not_found_server) (fun _ => "{}") "c-1"
              false 0%nat token_client ("HTTP 404: " +:+ not_found_text)
              connected connected eq_refl eq_refl eq_refl) as (w' & Hrun & Htr).
  exists w'. split; [exact Hrun |]. rewrite Htr. reflexivity.
Defined.

(** X24.  A dependency check that fails with a [ClientError] does not stop
    the deletion: [retrieve_dependencies] reports the error and returns None,
    and [delete_connector] goes on to send the DELETE and returns True when
    that succeeds. *)
Theorem failed_dependency_check_does_not_stop_deletion `{X : External}
    (json_dumps : json -> string) (connector_id : string) (force : bool) (client : loc)
    (d : list (string * json)) (msg : string) (w0 w1 w2 w3 w4 : World) :
  let found := "Found connector: " +:+ py_str (dict_get "displayname" d)
               +:+ " (" +:+ py_str (dict_get "name" d) +:+ ")" in
  let checking := with_event (EvEcho (nl +:+ "Checking for dependencies..."))
                    (with_event (EvEcho found) w2) in
  get_client w0 = (inr client, w1) ->
  DataverseClient_get client ("connectors(" +:+ connector_id +:+ ")")
    (Some [("$select", JStr "connectorid,name,displayname")])
    (with_event (EvEcho ("Fetching connector " +:+ connector_id +:+ "...")) w1)
  = (inr (JDict d), w2) ->
  DataverseClient_post client "RetrieveDependenciesForDelete"
    (JDict [("ObjectId", JStr connector_id); ("ComponentType", JNum 372)]) checking
  = (inl (ClientError msg), w3) ->
  DataverseClient_delete client ("connectors(" +:+ connector_id +:+ ")")
    (with_event (EvEcho (nl +:+ "Attempting to delete connector " +:+ connector_id +:+ "..."))
       (with_event (EvEcho ("Error retrieving dependencies: " +:+ msg)) w3))
  = (inr tt, w4) ->
  retrieve_dependencies client connector_id checking
  = (inr JNull, with_event (EvEcho ("Error retrieving dependencies: " +:+ msg)) w3)
  /\ delete_connector json_dumps connector_id force w0
     = (inr true,
        with_event (EvEcho ("✓ Successfully deleted connector " +:+ connector_id)) w4).
Proof.
  intros found checking Hclient Hget Hpost Hdelete.
  assert (Hdeps : retrieve_dependencies client connector_id checking
                  = (inr JNull,
                     with_event (EvEcho ("Error retrieving dependencies: " +:+ msg)) w3)).
  { unfold retrieve_dependencies, except_ClientError.
    rewrite (try_except_inl _ _ _ _ _ Hpost). reflexivity. }
  split; [exact Hdeps |].
  unfold delete_connector, except_ClientError. apply try_except_inr.
  rewrite (bind_inr _ _ _ _ _ Hclient). unfold bind at 1, py_print at 1, emit at 1.
  fold (with_event (EvEcho ("Fetching connector " +:+ connector_id +:+ "...")) w1).
  rewrite (bind_inr _ _ _ _ _ Hget).
  cbn [py_get]. unfold bind at 1, ret at 1. unfold bind at 1, ret at 1.
  unfold bind at 1, py_print at 1, emit at 1.
  unfold bind at 1, py_print at 1, emit at 1.
  fold (with_event (EvEcho found) w2).
  fold (with_event (EvEcho (nl +:+ "Checking for dependencies..."))
          (with_event (EvEcho found) w2)).
  fold checking. rewrite (bind_inr _ _ _ _ _ Hdeps).
  cbn [py_truthy]. unfold bind at 1, ret at 1.
  unfold bind at 1, py_print at 1, emit at 1.
  match goal with |- bind _ _ ?w = _ =>
    change w with (with_event
                     (EvEcho (nl +:+ "Attempting to delete connector " +:+ connector_id
                              +:+ "..."))
                     (with_event (EvEcho ("Error retrieving dependencies: " +:+ msg)) w3))
  end.
  rewrite (bind_inr _ _ _ _ _ Hdelete). reflexivity.
Qed.

Lemma failed_dependency_check_does_not_stop_deletion_witness :
  fst (delete_connector (X := refusing_actions_server) (fun _ => "{}") "c-1" false connected)
  = inr true
  /\ map req_method
       (omap (fun ev => match ev with EvHttp req => Some req | _ => None end)
          (trace (snd (delete_connector (X := refusing_actions_server) (fun _ => "{}")
                         "c-1" false connected))))
     = [GET; POST; DELETE].
Proof.
  pose (w2 := snd (DataverseClient_get (X := refusing_actions_server) 0%nat
                     "connectors(c-1)"
                     (Some [("$select", JStr "connectorid,name,displayname")])
                     (with_event (EvEcho "Fetching connector c-1...") connected))).
  pose (w3 := snd (DataverseClient_post (X := refusing_actions_server) 0%nat
                     "RetrieveDependenciesForDelete"
                     (JDict [("ObjectId", JStr "c-1"); ("ComponentType", JNum 372)])
                     (with_event (EvEcho (nl +:+ "Checking for dependencies..."))
                        (with_event (EvEcho "Found connector: None (None)") w2)))).
  pose (w4 := snd (DataverseClient_delete (X := refusing_actions_server) 0%nat
                     "connectors(c-1)"
                     (with_event (EvEcho (nl +:+ "Attempting to delete connector c-1..."))
                        (with_event
                           (EvEcho ("Error retrieving dependencies: HTTP 404: "
                                    +:+ not_found_text)) w3)))).
  destruct (failed_dependency_check_does_not_stop_deletion (X := refusing_actions_server)
              (fun _ => "{}") "c-1" false 0%nat [] ("HTTP 404: " +:+ not_found_text)
              connected connected w2 w3 w4 eq_refl eq_refl eq_refl eq_refl) as [_ Hrun].
  rewrite Hrun. split; reflexivity.
Defined.

(** X25.  [delete_connector] returns True only when the server has answered
    the DELETE of the connector with a status that is no error: the last
    request sent is that DELETE, its answer has a status outside 400 to 599,
    and the last line printed reports the deletion. *)
Theorem success_means_the_delete_was_answered `{X : External}
    (json_dumps : json -> string) (connector_id : string) (force : bool) (w0 w' : World) :
  delete_connector json_dumps connector_id force w0 = (inr true, w') ->
  exists c tr r,
    trace w'
    = tr ++ [EvHttp (request_of c DELETE ("connectors(" +:+ connector_id +:+ ")") None None);
             EvEcho ("✓ Successfully deleted connector " +:+ connector_id)]
    /\ http_send tr (request_of c DELETE ("connectors(" +:+ connector_id +:+ ")") None None)
       = Responded r
    /\ ~ (400 <= status_code r < 600).
Proof.
  unfold delete_connector, except_ClientError, try_except.
  match goal with |- context [match ?body w0 with _ => _ end] =>
    destruct (body w0) as [[e|b] wb] eqn:Hbody end.
  - destruct e; try (unfold raise; discriminate).
    unfold bind at 1, py_print at 1, emit at 1.
    destruct (is_dependency_error (ClientError msg)).
    + match goal with |- context [bind (print_lines ?l) _ ?w] =>
        destruct (print_lines_run l w) as (w2 & Hp & _) end.
      rewrite (bind_inr _ _ _ _ _ Hp). discriminate.
    + discriminate.
  - intros [= -> ->].
    apply bind_inr_inv in Hbody as (client & w1 & _ & Hbody).
    apply bind_inr_inv in Hbody as (? & w2 & _ & Hbody).
    apply bind_inr_inv in Hbody as (connector & w3 & _ & Hbody).
    apply bind_inr_inv in Hbody as (displayname & w4 & _ & Hbody).
    apply bind_inr_inv in Hbody as (name & w5 & _ & Hbody).
    apply bind_inr_inv in Hbody as (? & w6 & _ & Hbody).
    apply bind_inr_inv in Hbody as (? & w7 & _ & Hbody).
    apply bind_inr_inv in Hbody as (dependencies & w8 & _ & Hbody).
    apply bind_inr_inv in Hbody as (? & w9 & _ & Hbody).
    apply bind_inr_inv in Hbody as (? & w10 & _ & Hbody).
    apply bind_inr_inv in Hbody as ([] & w11 & Hdelete & Hbody).
    apply bind_inr_inv in Hbody as (? & w12 & Hprint & Hret).
    apply delete_inr_inv in Hdelete as (c & r & _ & -> & Hsend & Hstatus).
    unfold ret in Hret. unfold py_print, emit in Hprint. simplify_eq.
    exists c, (trace w10), r. repeat split; try assumption.
    cbn. now rewrite <- app_assoc.
Qed.

Lemma success_means_the_delete_was_answered_witness :
  exists c tr r,
    trace (snd (delete_connector (X := refusing_actions_server) (fun _ => "{}") "c-1" false
                  connected))
    = tr ++ [EvHttp (request_of c DELETE "connectors(c-1)" None None);
             EvEcho "✓ Successfully deleted connector c-1"]
    /\ @http_send refusing_actions_server tr
         (request_of c DELETE "connectors(c-1)" None None) = Responded r
    /\ ~ (400 <= status_code r < 600).
Proof.
  apply (success_means_the_delete_was_answered (X := refusing_actions_server)
           (fun _ => "{}") "c-1" false connected). 
  vm_compute. reflexivity.
Defined.
